(** * Verification of the agent examples (flight booking, code execution, weather)

    A shallow embedding of the Python sources:
    - [flight_booking.py]: the result validator, the embedded flight listing,
      the session loop of [main], [find_seat] and the [extract_flights] tool;
    - [pydanticAI and riza/pydantic.py]: the [execute_code] tool;
    - [weather_agent.py]: the [get_weather] tool.

    Python exceptions are modelled by an error monad, mutable [Usage] objects
    by an explicit store of ledgers addressed by location, and interaction with
    the outside world (agent runs, prints, prompts) by an event trace. *)

From Stdlib Require Import ZArith Lia Ascii String DecimalString.
From stdpp Require Import base option list strings gmap.

Local Open Scope string_scope.
Local Open Scope list_scope.

(** ** Python results and exceptions *)

Module Py.

(** The exceptions that the modelled code can raise. *)
Inductive exc : Type :=
| ModelRetry (message : string)
| TypeError (message : string)
| AttributeError (message : string)
| HTTPStatusError
| EOFError
| RetriesExhausted
| BudgetExceeded
| UnknownCapability (name : string)
| EngineUnavailable.

(** The failures that abort a session wherever they arise. *)
Definition fatal (e : exc) : bool :=
  match e with
  | BudgetExceeded | UnknownCapability _ | EngineUnavailable => true
  | _ => false
  end.

(** A computation either returns a value or raises. *)
Inductive result (A : Type) : Type :=
| Return (a : A)
| Raise (e : exc).
Arguments Return {A} a.
Arguments Raise {A} e.

Definition returns {A} (m : result A) : Prop := exists a, m = Return a.

(** ['\n'] *)
Definition newline : string := String (ascii_of_nat 10) EmptyString.

(** [sep.join(parts)] *)
Definition join (sep : string) (parts : list string) : string :=
  String.concat sep parts.

(** Decimal rendering of a natural number, left-padded with zeros to
    [width] characters, as the format [%0<width>d] does. *)
Definition decimal (n : nat) : string := NilZero.string_of_uint (Nat.to_uint n).

Fixpoint zeros (k : nat) : string :=
  match k with
  | O => ""
  | S k' => String "0" (zeros k')
  end.

Definition zero_padded (width n : nat) : string :=
  let digits := decimal n in
  zeros (width - String.length digits) +:+ digits.

(** Strings are sequences of bytes, a character outside ASCII being its
    UTF-8 encoding.  [bytes codes] is the string made of the given bytes. *)
Definition bytes (codes : list nat) : string :=
  string_of_list_ascii (List.map ascii_of_nat codes).

(** The characters [str.isspace] holds of: U+0009 to U+000D, U+001C to
    U+0020, U+0085, U+00A0, U+1680, U+2000 to U+200A, U+2028, U+2029,
    U+202F, U+205F and U+3000. *)
Definition whitespace : list string :=
  List.map bytes
    [ [9]; [10]; [11]; [12]; [13]; [28]; [29]; [30]; [31]; [32];
      [194; 133]; [194; 160]; [225; 154; 128];
      [226; 128; 128]; [226; 128; 129]; [226; 128; 130]; [226; 128; 131];
      [226; 128; 132]; [226; 128; 133]; [226; 128; 134]; [226; 128; 135];
      [226; 128; 136]; [226; 128; 137]; [226; 128; 138];
      [226; 128; 168]; [226; 128; 169]; [226; 128; 175]; [226; 129; 159];
      [227; 128; 128] ].

(** [after p s]: what follows [p] in [s], when [s] starts with [p]. *)
Fixpoint after (p s : string) : option string :=
  match p with
  | EmptyString => Some s
  | String a p' =>
      match s with
      | EmptyString => None
      | String b s' => if Ascii.eqb a b then after p' s' else None
      end
  end.

Fixpoint after_any (ps : list string) (s : string) : option string :=
  match ps with
  | [] => None
  | p :: ps' =>
      match after p s with
      | Some rest => Some rest
      | None => after_any ps' s
      end
  end.

(** Leading occurrences of the strings [ps] are dropped, at most [n] of
    them. *)
Fixpoint lstrip_of (ps : list string) (n : nat) (s : string) : string :=
  match n with
  | O => s
  | S n' =>
      match after_any ps s with
      | Some rest => lstrip_of ps n' rest
      | None => s
      end
  end.

Definition reverse (s : string) : string :=
  string_of_list_ascii (List.rev (list_ascii_of_string s)).

(** [s.lstrip()], [s.rstrip()] and [s.strip()] *)
Definition lstrip (s : string) : string :=
  lstrip_of whitespace (String.length s) s.

Definition rstrip (s : string) : string :=
  reverse (lstrip_of (List.map reverse whitespace) (String.length s) (reverse s)).

Definition strip (s : string) : string := rstrip (lstrip s).

End Py.


(** ** [datetime.date] *)

Module Date.

Record t : Type := make { year : nat; month : nat; day : nat }.

(** [date.__eq__]: component-wise comparison. *)
Definition eqb (a b : t) : bool :=
  Nat.eqb (year a) (year b) && Nat.eqb (month a) (month b) && Nat.eqb (day a) (day b).

(** [str(date)] is [date.isoformat()]: [YYYY-MM-DD]. *)
Definition isoformat (d : t) : string :=
  Py.zero_padded 4 (year d) +:+ "-" +:+ Py.zero_padded 2 (month d) +:+ "-"
    +:+ Py.zero_padded 2 (day d).

End Date.

(** ** flight_booking.py: data model *)

(** [class FlightDetails(BaseModel)] *)
Record FlightDetails : Type := {
  flight_number : string;
  price : Z;
  origin : string;
  destination : string;
  date : Date.t
}.

(** The result type of the search agent, [FlightDetails | NoFlightFound];
    [NoFlightFound] carries no field. *)
Inductive SearchResult : Type :=
| IsFlightDetails (f : FlightDetails)
| IsNoFlightFound.

(** [@dataclass class Deps]; [web_page_text] is declared [str] but [main]
    stores [None] in it, hence the option. *)
Record Deps : Type := {
  web_page_text : option string;
  req_origin : string;
  req_destination : string;
  req_date : Date.t
}.

(** ** flight_booking.py: [validate_result] *)

Section Validator.

Variable deps : Deps.

Definition origin_error (result : FlightDetails) : string :=
  "Flight should have origin " +:+ req_origin deps +:+ ", not " +:+ origin result.

Definition destination_error (result : FlightDetails) : string :=
  "Flight should have destination " +:+ req_destination deps +:+ ", not "
    +:+ destination result.

Definition date_error (result : FlightDetails) : string :=
  "Flight should have date " +:+ Date.isoformat (req_date deps) +:+ ", not "
    +:+ Date.isoformat (date result).

(** The list [errors] as it stands when line 104 tests it: it starts empty
    and each failed comparison appends one entry. *)
Definition validation_errors (result : FlightDetails) : list string :=
  let errors : list string := [] in
  let errors :=
    if negb (String.eqb (origin result) (req_origin deps))
    then (errors ++ [origin_error result])%list else errors in
  let errors :=
    if negb (String.eqb (destination result) (req_destination deps))
    then (errors ++ [destination_error result])%list else errors in
  let errors :=
    if negb (Date.eqb (date result) (req_date deps))
    then (errors ++ [date_error result])%list else errors in
  errors.

Definition validate_result (result : SearchResult) : Py.result SearchResult :=
  match result with
  | IsNoFlightFound => Py.Return result
  | IsFlightDetails f =>
      match validation_errors f with
      | [] => Py.Return result
      | errors => Py.Raise (Py.ModelRetry (Py.join Py.newline errors))
      end
  end.

(** *** The validator contract in the specification's terms *)

(** The constraint fields, in the order [Deps] declares them. *)
Inductive ConstraintField : Type := Origin | Destination | TravelDate.

Definition constraint_fields : list ConstraintField :=
  [Origin; Destination; TravelDate].

Definition field_matches (result : FlightDetails) (c : ConstraintField) : bool :=
  match c with
  | Origin => String.eqb (origin result) (req_origin deps)
  | Destination => String.eqb (destination result) (req_destination deps)
  | TravelDate => Date.eqb (date result) (req_date deps)
  end.

Definition mismatched_fields (result : FlightDetails) : list ConstraintField :=
  List.filter (fun c => negb (field_matches result c)) constraint_fields.

Definition mismatch_message (result : FlightDetails) (c : ConstraintField) : string :=
  match c with
  | Origin => origin_error result
  | Destination => destination_error result
  | TravelDate => date_error result
  end.

Definition meets_constraints (result : FlightDetails) : Prop :=
  origin result = req_origin deps /\
  destination result = req_destination deps /\
  date result = req_date deps.

End Validator.

(** ** flight_booking.py: the embedded flight listing *)

(** The module constant [flights_web_page], character for character. *)
Definition flights_web_page : string := "
1. Flight SFO-AK123
- Price: $350
- Origin: San Francisco International Airport (SFO)
- Destination: Ted Stevens Anchorage International Airport (ANC)
- Date: January 10, 2025

2. Flight SFO-AK456
- Price: $370
- Origin: San Francisco International Airport (SFO)
- Destination: Fairbanks International Airport (FAI)
- Date: January 10, 2025

3. Flight SFO-AK789
- Price: $400
- Origin: San Francisco International Airport (SFO)
- Destination: Juneau International Airport (JNU)
- Date: January 20, 2025

4. Flight NYC-LA101
- Price: $250
- Origin: San Francisco International Airport (SFO)
- Destination: Ted Stevens Anchorage International Airport (ANC)
- Date: January 10, 2025

5. Flight CHI-MIA202
- Price: $200
- Origin: Chicago O'Hare International Airport (ORD)
- Destination: Miami International Airport (MIA)
- Date: January 12, 2025

6. Flight BOS-SEA303
- Price: $120
- Origin: Boston Logan International Airport (BOS)
- Destination: Ted Stevens Anchorage International Airport (ANC)
- Date: January 12, 2025

7. Flight DFW-DEN404
- Price: $150
- Origin: Dallas/Fort Worth International Airport (DFW)
- Destination: Denver International Airport (DEN)
- Date: January 10, 2025

8. Flight ATL-HOU505
- Price: $180
- Origin: Hartsfield-Jackson Atlanta International Airport (ATL)
- Destination: George Bush Intercontinental Airport (IAH)
- Date: January 10, 2025
".

(** The listing as structured data.  The page is free text that the
    extraction agent reads; [Listing.render] writes an entry back in the
    page's layout, so that the structured pool can be compared with the
    constant above. *)
Module Listing.

Record entry : Type := {
  details : FlightDetails;
  origin_airport : string;
  destination_airport : string
}.

Definition month_name (m : nat) : string :=
  match m with
  | 1 => "January" | 2 => "February" | 3 => "March" | 4 => "April"
  | 5 => "May" | 6 => "June" | 7 => "July" | 8 => "August"
  | 9 => "September" | 10 => "October" | 11 => "November" | 12 => "December"
  | _ => "?"
  end%nat.

Definition render_date (d : Date.t) : string :=
  month_name (Date.month d) +:+ " " +:+ Py.decimal (Date.day d) +:+ ", "
    +:+ Py.decimal (Date.year d).

Definition render_entry (position : nat) (e : entry) : string :=
  let f := details e in
  Py.decimal position +:+ ". Flight " +:+ flight_number f +:+ Py.newline
  +:+ "- Price: $" +:+ Py.decimal (Z.to_nat (price f)) +:+ Py.newline
  +:+ "- Origin: " +:+ origin_airport e +:+ " (" +:+ origin f +:+ ")" +:+ Py.newline
  +:+ "- Destination: " +:+ destination_airport e +:+ " (" +:+ destination f +:+ ")"
  +:+ Py.newline
  +:+ "- Date: " +:+ render_date (date f) +:+ Py.newline.

(** Entries are numbered from 1 and separated by an empty line; the
    page opens with a line break. *)
Definition render (entries : list entry) : string :=
  Py.newline +:+
  Py.join Py.newline
    (List.map (fun '(i, e) => render_entry (S i) e)
              (List.combine (List.seq 0 (List.length entries)) entries)).

Definition flight (number : string) (cost : Z) (from_name from_code : string)
    (to_name to_code : string) (y m d : nat) : entry :=
  {| details := {| flight_number := number; price := cost; origin := from_code;
                   destination := to_code; date := Date.make y m d |};
     origin_airport := from_name;
     destination_airport := to_name |}.

Definition SFO := "San Francisco International Airport".
Definition ANC := "Ted Stevens Anchorage International Airport".

(** The eight flights of the page. *)
Definition entries : list entry := [
  flight "SFO-AK123" 350 SFO "SFO" ANC "ANC" 2025 1 10;
  flight "SFO-AK456" 370 SFO "SFO" "Fairbanks International Airport" "FAI" 2025 1 10;
  flight "SFO-AK789" 400 SFO "SFO" "Juneau International Airport" "JNU" 2025 1 20;
  flight "NYC-LA101" 250 SFO "SFO" ANC "ANC" 2025 1 10;
  flight "CHI-MIA202" 200 "Chicago O'Hare International Airport" "ORD"
         "Miami International Airport" "MIA" 2025 1 12;
  flight "BOS-SEA303" 120 "Boston Logan International Airport" "BOS" ANC "ANC" 2025 1 12;
  flight "DFW-DEN404" 150 "Dallas/Fort Worth International Airport" "DFW"
         "Denver International Airport" "DEN" 2025 1 10;
  flight "ATL-HOU505" 180 "Hartsfield-Jackson Atlanta International Airport" "ATL"
         "George Bush Intercontinental Airport" "IAH" 2025 1 10
].

End Listing.

(** The candidate pool: the flights the page describes. *)
Definition candidate_pool : list FlightDetails :=
  List.map Listing.details Listing.entries.

(** The constraints [main] names: [req_origin='SFO'], [req_destination='ANC'],
    [web_page_text=None], and the date 2025-01-10 that its expression
    [datetime(2025, 1, 10)] is written for (the call itself raises, see
    [datetime_module_call] below, so [main] never holds this value). *)
Definition main_deps : Deps :=
  {| web_page_text := None;
     req_origin := "SFO";
     req_destination := "ANC";
     req_date := Date.make 2025 1 10 |}.

(** Whether the validator lets a candidate flight through. *)
Definition accepted_by_validator (deps : Deps) (f : FlightDetails) : bool :=
  match validate_result deps (IsFlightDetails f) with
  | Py.Return _ => true
  | Py.Raise _ => false
  end.

Definition matching_flights (deps : Deps) (pool : list FlightDetails) : list FlightDetails :=
  List.filter (accepted_by_validator deps) pool.

(** ** The usage ledger *)

Module Ledger.

(** Modelled from the spec: the Usage Ledger (section 4.1).  The classes
    [Usage] and [UsageLimits] come from the [pydantic_ai] package, which is
    imported by the sources but is not part of them; the sources only
    create [Usage()] and [UsageLimits(request_limit=15)] and pass them on.
    The ledger is a counter of consumed units. *)
Record Usage : Type := { consumed : nat }.

(** [Usage()] *)
Definition empty : Usage := {| consumed := 0 |}.

(** Modelled from the spec: the ceiling configuration; [None] is the
    absence of a ceiling. *)
Record UsageLimits : Type := { request_limit : option nat }.

(** Modelled from the spec: [charge(units)] increments the counter. *)
Definition charge (units : nat) (u : Usage) : Usage :=
  {| consumed := consumed u + units |}.

(** Modelled from the spec: [check(ceiling)] fails if the post-charge
    counter would exceed the ceiling.  [true] stands for a passed check. *)
Definition check (ceiling : nat) (units : nat) (u : Usage) : bool :=
  (consumed u + units <=? ceiling)%nat.

Inductive verdict : Type := Charged | BudgetExceeded.

(** Modelled from the spec: the check comes before the charge is
    committed, so a rejected charge leaves the ledger as it was. *)
Definition checked_charge (ceiling units : nat) (u : Usage) : verdict * Usage :=
  if check ceiling units u then (Charged, charge units u) else (BudgetExceeded, u).

(** Modelled from the spec: a sequence of charges against one ledger.  [BudgetExceeded] is fatal:
    the first rejected charge ends the sequence.  The result gives the
    position of the rejected charge, if any, and the ledger at the end. *)
Fixpoint charge_all (ceiling : nat) (charges : list nat) (u : Usage)
    : option nat * Usage :=
  match charges with
  | [] => (None, u)
  | c :: rest =>
      match checked_charge ceiling c u with
      | (BudgetExceeded, u') => (Some 0, u')
      | (Charged, u') =>
          let '(rejected, u'') := charge_all ceiling rest u' in
          (S <$> rejected, u'')
      end
  end.

(** The sum of the first [k] charges. *)
Definition running_sum (charges : list nat) (k : nat) : nat :=
  list_sum (take k charges).

(** Modelled from the spec: the check against the ceiling configuration. *)
Definition within (limits : option UsageLimits) (units : nat) (u : Usage) : bool :=
  match limits with
  | Some {| request_limit := Some ceiling |} => check ceiling units u
  | _ => true
  end.

End Ledger.

(** [usage_limits = UsageLimits(request_limit=15)] *)
Definition usage_limits : Ledger.UsageLimits := {| Ledger.request_limit := Some 15 |}.

(** ** The store of ledgers *)

(** [Usage] objects are mutable and passed by reference: a location names
    a ledger in the store. *)
Definition loc : Type := nat.
Abbreviation store := (list Ledger.Usage).

Definition ledger_at (s : store) (u : loc) : Ledger.Usage :=
  default Ledger.empty (s !! u).

(** [Usage()]: a new ledger at a fresh location. *)
Definition alloc (s : store) : loc * store := (length s, s ++ [Ledger.empty]).

(** The ledger at [u] is charged [units] if the limits allow it; [None]
    reports [BudgetExceeded], with the store left alone. *)
Definition charge_at (limits : option Ledger.UsageLimits) (u : loc) (units : nat)
    (s : store) : option store :=
  if Ledger.within limits units (ledger_at s u)
  then Some (<[u := Ledger.charge units (ledger_at s u)]> s)
  else None.

(** What a run may do to the store when it works on the ledger at [u]: no
    ledger is created, no other ledger changes, and the counter at [u]
    does not decrease. *)
Definition charges_only (u : loc) (s s' : store) : Prop :=
  length s' = length s /\
  (forall v, v <> u -> s' !! v = s !! v) /\
  Ledger.consumed (ledger_at s u) <= Ledger.consumed (ledger_at s' u).

(** ** The turn orchestrator *)

Module Agent.

Section Orchestrator.

(** The dependencies of a run, the structured result and the output of
    a capability. *)
Context {D R Obs : Type}.

(** [RunContext]: what a tool or validator receives; [ctx.usage] is the
    ledger of the run it is called from. *)
Record RunContext : Type := { ctx_deps : D; ctx_usage : loc }.

(** Modelled from the spec: a Capability Invocation Request (section 3). *)
Record request : Type := { capability : string; arguments : string }.

(** Modelled from the spec: a Turn Record (section 3); the history is
    the list of the records in arrival order. *)
Inductive turn : Type :=
| UserPrompt (text : option string)
| EngineResult (r : R)
| EngineRequests (requests : list request)
| CapabilityReturn (name : string) (output : Obs)
| CapabilityError (name : string) (cause : Py.exc)
| RetryFeedback (message : string).

(** Modelled from the spec: the Completion Engine (section 6).  It is
    opaque: a function of the history it is shown, which answers with a
    structured result or with capability requests, and with the cost of
    the call; [None] is [EngineUnavailable]. *)
Inductive variant : Type :=
| StructuredResult (r : R)
| CapabilityRequests (requests : list request).

Record EngineResponse : Type := { response : variant; usage_cost : nat }.

Definition Engine : Type := list turn -> option EngineResponse.

(** Modelled from the spec: a capability handler (section 4.4).  It works
    on the store; [None] stands for a handler that does not come back within
    the fuel it was given. *)
Definition Handler : Type :=
  RunContext -> string -> store -> option (Py.result Obs) * store.

(** What the sources configure on an agent: the retry maximum, the
    registered tools and the result validator. *)
Record config : Type := {
  retries : nat;
  registry : gmap string Handler;
  validator : RunContext -> R -> Py.result R
}.

(** Modelled from the spec: the ways a run ends (sections 4.2 and 7);
    [OutOfFuel] stands for a run that has not ended within its fuel. *)
Inductive outcome : Type :=
| Accepted (r : R)
| Failed (e : Py.exc)
| OutOfFuel.

Variable agent : config.
Variable engine : Engine.
Variable limits : option Ledger.UsageLimits.
Variable ctx : RunContext.

(** Modelled from the spec: section 4.2, the capability round.  Each
    request is looked up in the registry ([UnknownCapability] when it is
    absent), invoked, and its output appended to the history; a handler
    that fails is recorded as an error observation, unless the failure is
    a fatal one. *)
Fixpoint resolve (requests : list request) (history : list turn) (s : store)
    : option outcome * list turn * store :=
  match requests with
  | [] => (None, history, s)
  | q :: rest =>
      match registry agent !! capability q with
      | None => (Some (Failed (Py.UnknownCapability (capability q))), history, s)
      | Some handler =>
          match handler ctx (arguments q) s with
          | (None, s') => (Some OutOfFuel, history, s')
          | (Some (Py.Return output), s') =>
              resolve rest (history ++ [CapabilityReturn (capability q) output]) s'
          | (Some (Py.Raise e), s') =>
              if Py.fatal e then (Some (Failed e), history, s')
              else resolve rest (history ++ [CapabilityError (capability q) e]) s'
          end
      end
  end.

(** Modelled from the spec: section 4.2, the state machine.  [attempts]
    is the retry budget: the number of candidate results the validator
    may still see, the one being produced included.  The engine is
    invoked on the history; the ledger is checked and charged with the
    reported cost; capability requests are resolved and the engine is
    invoked again; a structured result goes to the validator, which
    accepts it or asks for a retry by raising [ModelRetry]; a retry
    decrements the budget, and an exhausted budget ends the run in
    [RetriesExhausted]. *)
Fixpoint orchestrate (fuel : nat) (attempts : nat) (history : list turn)
    (s : store) : outcome * list turn * store :=
  match fuel with
  | O => (OutOfFuel, history, s)
  | S fuel' =>
      match engine history with
      | None => (Failed Py.EngineUnavailable, history, s)
      | Some answer =>
          match charge_at limits (ctx_usage ctx) (usage_cost answer) s with
          | None => (Failed Py.BudgetExceeded, history, s)
          | Some s1 =>
              match response answer with
              | CapabilityRequests requests =>
                  match resolve requests (history ++ [EngineRequests requests]) s1 with
                  | (Some stopped, history', s2) => (stopped, history', s2)
                  | (None, history', s2) => orchestrate fuel' attempts history' s2
                  end
              | StructuredResult r =>
                  let history1 := history ++ [EngineResult r] in
                  match validator agent ctx r with
                  | Py.Return r' => (Accepted r', history1, s1)
                  | Py.Raise (Py.ModelRetry message) =>
                      let history2 := history1 ++ [RetryFeedback message] in
                      match attempts with
                      | S (S more) => orchestrate fuel' (S more) history2 s1
                      | _ => (Failed Py.RetriesExhausted, history2, s1)
                      end
                  | Py.Raise e => (Failed e, history1, s1)
                  end
              end
          end
      end
  end.

(** The number of candidate results in a history: one per attempt. *)
Definition attempts_in (history : list turn) : nat :=
  length (List.filter (fun t => match t with EngineResult _ => true | _ => false end)
                      history).

(** Every call of the engine yields a candidate that the validator turns
    down, at a cost of at most [cmax]. *)
Definition always_retried (cmax : nat) : Prop :=
  forall history, exists r c message,
    engine history = Some {| response := StructuredResult r; usage_cost := c |} /\
    c <= cmax /\
    validator agent ctx r = Py.Raise (Py.ModelRetry message).

(** The validator asks for a retry on every call: whatever candidate the
    engine produces, it is turned down.  Nothing is said of how often the
    engine produces one. *)
Definition retried_on_every_call : Prop :=
  forall history r c,
    engine history = Some {| response := StructuredResult r; usage_cost := c |} ->
    exists message, validator agent ctx r = Py.Raise (Py.ModelRetry message).

(** Every call of the engine costs at least one unit. *)
Definition every_call_costs : Prop :=
  forall history answer, engine history = Some answer -> 1 <= usage_cost answer.

(** Every registered handler comes back, and only charges the ledger of
    the run. *)
Definition handlers_return : Prop :=
  forall name handler, registry agent !! name = Some handler ->
  forall arguments s,
    (handler ctx arguments s).1 <> None /\
    charges_only (ctx_usage ctx) s (handler ctx arguments s).2.

End Orchestrator.

Arguments RunContext : clear implicits.
Arguments turn : clear implicits.
Arguments variant : clear implicits.
Arguments EngineResponse : clear implicits.
Arguments Engine : clear implicits.
Arguments Handler : clear implicits.
Arguments config : clear implicits.
Arguments outcome : clear implicits.

Section Run.

Context {D R Obs : Type}.

(** Modelled from the spec: the outcome of a run (section 6), the
    accepted result with the history and the ledger of the run.  The class
    is declared in [pydantic_ai]; the sources read [result.data] and call
    [result.all_messages()] and [result.usage()] on it. *)
Record RunResult : Type := {
  data : R;
  all_messages : list (turn R Obs);
  usage : loc
}.

(** Attribute lookup on a run result, by name: the attributes are those
    the sources use; any other name raises [AttributeError]. *)
Definition RunResult_attributes : list string := ["data"; "all_messages"; "usage"].

Definition getattr (result : RunResult) (name : string) : Py.result string :=
  if bool_decide (name ∈ RunResult_attributes)
  then Py.Return name
  else Py.Raise (Py.AttributeError name).

(** Modelled from the spec: one run of the Turn Orchestrator, called in
    the sources as [agent.run(user_prompt, deps=, usage=,
    message_history=, usage_limits=)].  The history replayed to the engine
    is [message_history] followed by the prompt; without [usage] the run
    counts on a ledger of its own.  Failures surface as exceptions. *)
Definition run (agent : config D R Obs) (engine : Engine R Obs) (fuel : nat)
    (user_prompt : option string) (deps : D) (usage : option loc)
    (message_history : option (list (turn R Obs)))
    (limits : option Ledger.UsageLimits) (s : store)
    : option (Py.result RunResult) * store :=
  let '(u, s0) := match usage with
                  | Some u => (u, s)
                  | None => alloc s
                  end in
  let history := default [] message_history ++ [UserPrompt user_prompt] in
  let ctx := {| ctx_deps := deps; ctx_usage := u |} in
  match orchestrate agent engine limits ctx fuel (retries agent) history s0 with
  | (Accepted r, history', s') =>
      (Some (Py.Return {| data := r; all_messages := history'; usage := u |}), s')
  | (Failed e, _, s') => (Some (Py.Raise e), s')
  | (OutOfFuel, _, s') => (None, s')
  end.

End Run.

Arguments RunResult : clear implicits.

End Agent.

(** ** flight_booking.py: the agents and the [extract_flights] tool *)

Abbreviation SearchTurn := (Agent.turn SearchResult (list FlightDetails)).
Abbreviation SearchEngine := (Agent.Engine SearchResult (list FlightDetails)).
Abbreviation ExtractionEngine := (Agent.Engine (list FlightDetails) unit).

(** [extraction_agent]: no tool and no validator; no [retries] argument,
    and without a validator the budget is never consulted. *)
Definition extraction_agent : Agent.config unit (list FlightDetails) unit :=
  {| Agent.retries := 1;
     Agent.registry := ∅;
     Agent.validator := fun _ r => Py.Return r |}.

(** [extract_flights(ctx)]: the nested run receives [usage=ctx.usage], the
    ledger of the run the tool is called from.  The [logfire] call only logs. *)
Definition extract_flights (engine : ExtractionEngine) (fuel : nat)
    : Agent.Handler Deps (list FlightDetails) :=
  fun ctx _ s =>
    match Agent.run extraction_agent engine fuel
            (web_page_text (Agent.ctx_deps ctx)) tt
            (Some (Agent.ctx_usage ctx)) None None s with
    | (Some (Py.Return result), s') => (Some (Py.Return (Agent.data result)), s')
    | (Some (Py.Raise e), s') => (Some (Py.Raise e), s')
    | (None, s') => (None, s')
    end.

(** [search_agent]: [retries=4], the tool [extract_flights] and the result
    validator [validate_result]. *)
Definition search_agent (engine : ExtractionEngine) (fuel : nat)
    : Agent.config Deps SearchResult (list FlightDetails) :=
  {| Agent.retries := 4;
     Agent.registry := {[ "extract_flights" := extract_flights engine fuel ]};
     Agent.validator := fun ctx r => validate_result (Agent.ctx_deps ctx) r |}.

(** ** flight_booking.py: seats *)

Definition seat_letters : list string := ["A"; "B"; "C"; "D"; "E"; "F"].

(** The field constraints of [SeatPreference]: [row: int = Field(ge=1, le=30)]
    and [seat: Literal['A', 'B', 'C', 'D', 'E', 'F']]. *)
Definition SeatPreference_fields_ok (row : Z) (seat : string) : bool :=
  (1 <=? row)%Z && (row <=? 30)%Z && bool_decide (seat ∈ seat_letters).

(** [class SeatPreference(BaseModel)]: an instance exists only once its
    fields have passed validation. *)
Record SeatPreference : Type := {
  row : Z;
  seat : string;
  validated : SeatPreference_fields_ok row seat = true
}.

(** [SeatPreference | Failed] *)
Inductive SeatResult : Type :=
| IsSeatPreference (p : SeatPreference)
| IsFailed.

Abbreviation SeatTurn := (Agent.turn SeatResult unit).
Abbreviation SeatEngine := (Agent.Engine SeatResult unit).

(** [seat_preference_agent]: no tool, no validator. *)
Definition seat_preference_agent : Agent.config unit SeatResult unit :=
  {| Agent.retries := 1;
     Agent.registry := ∅;
     Agent.validator := fun _ r => Py.Return r |}.

(** ** flight_booking.py: the interactive part *)

(** What the program does to the outside world, in order. *)
Inductive event : Type :=
| Print (text : string)
| PrintFlightFound (flight : FlightDetails)
| PrintPurchasing (flight : FlightDetails) (seat : SeatPreference)
| Ask (prompt : string)
| RunSearch (user_prompt : string) (message_history : option (list SearchTurn))
| RunSeat (user_prompt : string) (message_history : option (list SeatTurn)).

(** The ledgers, the lines still to be typed by the user, and the events
    so far. *)
Record world : Type := {
  ledgers : store;
  stdin : list string;
  trace : list event
}.

Definition emit (e : event) (w : world) : world :=
  {| ledgers := ledgers w; stdin := stdin w; trace := trace w ++ [e] |}.

Definition with_ledgers (s : store) (w : world) : world :=
  {| ledgers := s; stdin := stdin w; trace := trace w |}.

(** [Prompt.ask] of [rich]: a line is read and stripped
    ([value = value.strip()] in [process_response]); with [choices], a
    stripped line that is not among them is turned down and the next line is
    read; the stripped line is returned.  No [default] is passed, so the
    empty line is treated like any other.  Reading past the end of the input
    raises [EOFError]. *)
Fixpoint read_choice (choices : option (list string)) (lines : list string)
    : Py.result string * list string :=
  match lines with
  | [] => (Py.Raise Py.EOFError, [])
  | line :: rest =>
      let value := Py.strip line in
      match choices with
      | None => (Py.Return value, rest)
      | Some allowed =>
          if bool_decide (value ∈ allowed) then (Py.Return value, rest)
          else read_choice choices rest
      end
  end.

Definition Prompt_ask (prompt : string) (choices : option (list string)) (w : world)
    : Py.result string * world :=
  let w1 := emit (Ask prompt) w in
  let '(answer, rest) := read_choice choices (stdin w1) in
  (answer, {| ledgers := ledgers w1; stdin := rest; trace := trace w1 |}).

(** [result.all.messages(...)]: the attribute [all] is looked up on the run
    result, then [messages] on its value.  None of the attributes of a run
    result has an attribute [messages]. *)
Definition all_dot_messages {R Obs : Type} (result : Agent.RunResult R Obs)
    (result_tool_return_content : option string) : Py.result (list (Agent.turn R Obs)) :=
  match Agent.getattr result "all" with
  | Py.Raise e => Py.Raise e
  | Py.Return _ => Py.Raise (Py.AttributeError "messages")
  end.

(** [buy_tickets(flight_details, seat)] *)
Definition buy_tickets (flight : FlightDetails) (s : SeatPreference) (w : world) : world :=
  emit (PrintPurchasing flight s) w.

(** The prompt [main] sends to the search agent. *)
Definition search_prompt (deps : Deps) : string :=
  "Find me a flight from " +:+ req_origin deps +:+ " to " +:+ req_destination deps
    +:+ " on " +:+ Date.isoformat (req_date deps).

Section Session.

(** The three engines are outside the program; [fuel] bounds the engine
    calls of one run. *)
Variable search_engine : SearchEngine.
Variable extraction_engine : ExtractionEngine.
Variable seat_engine : SeatEngine.
Variable fuel : nat.

(** [find_seat(usage)]: [rounds] bounds the iterations of [while True]. *)
Fixpoint find_seat (rounds : nat) (usage : loc)
    (message_history : option (list SeatTurn)) (w : world)
    : option (Py.result SeatPreference) * world :=
  match rounds with
  | O => (None, w)
  | S rounds' =>
      match Prompt_ask "What seat would you like?" None w with
      | (Py.Raise e, w1) => (Some (Py.Raise e), w1)
      | (Py.Return answer, w1) =>
          let w2 := emit (RunSeat answer message_history) w1 in
          match Agent.run seat_preference_agent seat_engine fuel (Some answer) tt
                  (Some usage) message_history (Some usage_limits) (ledgers w2) with
          | (None, s) => (None, with_ledgers s w2)
          | (Some (Py.Raise e), s) => (Some (Py.Raise e), with_ledgers s w2)
          | (Some (Py.Return result), s) =>
              let w3 := with_ledgers s w2 in
              match Agent.data result with
              | IsSeatPreference p => (Some (Py.Return p), w3)
              | IsFailed =>
                  let w4 :=
                    emit (Print "Could not understand seat preference. Please try again.")
                         w3 in
                  match all_dot_messages result None with
                  | Py.Raise e => (Some (Py.Raise e), w4)
                  | Py.Return history => find_seat rounds' usage (Some history) w4
                  end
              end
          end
      end
  end.

(** The [while True] loop of [main] (lines 197 to 223), for the
    constraints [deps] and the ledger [usage]; [rounds] bounds its
    iterations and [find_seat]'s. *)
Fixpoint session_loop (rounds : nat) (deps : Deps) (usage : loc)
    (message_history : option (list SearchTurn)) (w : world)
    : option (Py.result unit) * world :=
  match rounds with
  | O => (None, w)
  | S rounds' =>
      let w1 := emit (RunSearch (search_prompt deps) message_history) w in
      match Agent.run (search_agent extraction_engine fuel) search_engine fuel
              (Some (search_prompt deps)) deps (Some usage) message_history
              (Some usage_limits) (ledgers w1) with
      | (None, s) => (None, with_ledgers s w1)
      | (Some (Py.Raise e), s) => (Some (Py.Raise e), with_ledgers s w1)
      | (Some (Py.Return result), s) =>
          let w2 := with_ledgers s w1 in
          match Agent.data result with
          | IsNoFlightFound => (Some (Py.Return tt), emit (Print "No flight found") w2)
          | IsFlightDetails flight =>
              let w3 := emit (PrintFlightFound flight) w2 in
              match Prompt_ask
                      "Do you want to buy this flight, or keep searching? (buy/*search)"
                      (Some ["buy"; "search"; ""]) w3 with
              | (Py.Raise e, w4) => (Some (Py.Raise e), w4)
              | (Py.Return answer, w4) =>
                  if String.eqb answer "buy" then
                    match find_seat rounds' usage None w4 with
                    | (None, w5) => (None, w5)
                    | (Some (Py.Raise e), w5) => (Some (Py.Raise e), w5)
                    | (Some (Py.Return s), w5) => (Some (Py.Return tt), buy_tickets flight s w5)
                    end
                  else
                    match all_dot_messages result (Some "Please suggest another flight") with
                    | Py.Raise e => (Some (Py.Raise e), w4)
                    | Py.Return history => session_loop rounds' deps usage (Some history) w4
                    end
              end
          end
      end
  end.

(** [datetime(2025, 1, 10)] in [main]: the file does [import datetime], so
    the name is the module, and calling a module raises [TypeError]. *)
Definition datetime_module_call (y m d : nat) : Py.result Date.t :=
  Py.Raise (Py.TypeError "'module' object is not callable").

(** [main()], up to the end of its loop: the constraints are built, then
    [usage = Usage()], then the loop. *)
Definition main (rounds : nat) (w : world) : option (Py.result unit) * world :=
  match datetime_module_call 2025 1 10 with
  | Py.Raise e => (Some (Py.Raise e), w)
  | Py.Return d =>
      let deps := {| web_page_text := None; req_origin := "SFO";
                     req_destination := "ANC"; req_date := d |} in
      let '(usage, s) := alloc (ledgers w) in
      session_loop rounds deps usage None (with_ledgers s w)
  end.

End Session.

(** ** pydanticAI and riza/pydantic.py: [execute_code] *)

Module Riza.

(** The value [riza.command.exec] returns. *)
Record execution : Type := {
  exit_code : Z;
  stdout : string;
  stderr : string
}.

Definition no_output_message : string :=
  "Code executed successfully but produced no output. "
  +:+ "Ensure your code includes print statements to get output.".

Section Tool.

(** The sandbox is outside the program. *)
Variable exec : string -> execution.

(** [execute_code(code)]; the two [print] calls only log. *)
Definition execute_code (code : string) : Py.result string :=
  let result := exec code in
  if negb (exit_code result =? 0)%Z then
    Py.Raise (Py.ModelRetry (stderr result))
  else if String.eqb (stdout result) "" then
    Py.Raise (Py.ModelRetry no_output_message)
  else
    Py.Return (stdout result).

End Tool.

End Riza.

(** ** weather_agent.py: [get_weather] *)

Module Weather.

(** [@dataclass class Deps]; the HTTP client is the outside world. *)
Record Deps : Type := {
  weather_api_key : option string;
  geo_api_key : option string
}.

(** The dictionary [get_weather] returns. *)
Record report : Type := {
  temperature_text : string;
  description : string
}.

(** [code_lookup], the table of weather codes. *)
Definition code_lookup : gmap Z string :=
  list_to_map [
    (1000, "Clear, Sunny"); (1100, "Mostly Clear"); (1101, "Partly Cloudy");
    (1102, "Mostly Cloudy"); (1001, "Cloudy"); (2000, "Foggy");
    (2100, "Light Fog"); (4000, "Drizzle"); (4001, "Rain");
    (4200, "Light Rain"); (4201, "Heavy Rain"); (5000, "Snow");
    (5001, "Flurries"); (5100, "Light Snow"); (5101, "Heavy Snow");
    (6000, "Freezing Drizzle"); (6001, "Freezing Rain");
    (6200, "Light Freezing Rain"); (6201, "Heavy Freezing Rain");
    (7000, "Ice Pellets"); (7101, "Heavy Ice Pellets");
    (7102, "Light Ice Pellets"); (8000, "Thunderstorm")
  ]%Z.

(** [d.get(key, default)] *)
Definition dict_get (d : gmap Z string) (key : Z) (fallback : string) : string :=
  default fallback (d !! key).

(** [d(key, default)]: a dictionary is not callable, whatever the
    arguments. *)
Definition dict_call (d : gmap Z string) (key : Z) (fallback : string)
    : Py.result string :=
  Py.Raise (Py.TypeError "'dict' object is not callable").

Section Tool.

(** The temperature is a number of the JSON response; its type and the
    format [0.0f] are left open. *)
Variable Temperature : Type.
Variable format_0f : Temperature -> string.

(** [data['data']['values']] of a response. *)
Record values : Type := {
  temperature : Temperature;
  weatherCode : Z
}.

(** What the weather API answers: an error status, on which
    [r.raise_for_status()] raises, or a body. *)
Inductive response : Type :=
| ErrorStatus
| Body (v : values).

(** [get_weather(ctx, lat, lng)], given the answer of the API to the
    request it sends.  In the returned dictionary the entry for
    ['temperature'] is evaluated before the entry for ['description']. *)
Definition get_weather (deps : Deps) (answer : response) : Py.result report :=
  match weather_api_key deps with
  | None =>
      Py.Return {| temperature_text := "21 ℃";
                   description := "Sunny with a chance of showers" |}
  | Some _ =>
      match answer with
      | ErrorStatus => Py.Raise Py.HTTPStatusError
      | Body v =>
          let shown := format_0f (temperature v) +:+ " ℃" in
          match dict_call code_lookup (weatherCode v) "Unknown" with
          | Py.Raise e => Py.Raise e
          | Py.Return name =>
              Py.Return {| temperature_text := shown; description := name |}
          end
      end
  end.

End Tool.

End Weather.

(** ** Concrete engines and inputs for the scenarios *)

Module Scenario.

(** The flights of the page, by position. *)
Definition flight_at (i : nat) : FlightDetails :=
  default {| flight_number := ""; price := 0; origin := ""; destination := "";
             date := Date.make 0 0 0 |}
          (candidate_pool !! i).

Definition SFO_AK123 : FlightDetails := flight_at 0.
Definition SFO_AK456 : FlightDetails := flight_at 1.
Definition NYC_LA101 : FlightDetails := flight_at 3.

(** An engine that answers every call with the same result, at the cost
    of one request. *)
Definition always {R Obs : Type} (r : R) : Agent.Engine R Obs :=
  fun _ => Some {| Agent.response := Agent.StructuredResult r; Agent.usage_cost := 1 |}.

(** A search engine that first calls the tool [extract_flights] and then
    proposes [f]. *)
Definition tool_then (f : FlightDetails) : SearchEngine :=
  fun history =>
    match history with
    | [Agent.UserPrompt _] =>
        Some {| Agent.response :=
                  Agent.CapabilityRequests
                    [{| Agent.capability := "extract_flights"; Agent.arguments := "" |}];
                Agent.usage_cost := 1 |}
    | _ =>
        Some {| Agent.response := Agent.StructuredResult (IsFlightDetails f);
                Agent.usage_cost := 1 |}
    end.

(** A search engine that proposes [f] to the bare prompt and, once that has
    been turned down, only asks for the tool [extract_flights], call after
    call. *)
Definition stalls (f : FlightDetails) : SearchEngine :=
  fun history =>
    match history with
    | [Agent.UserPrompt _] =>
        Some {| Agent.response := Agent.StructuredResult (IsFlightDetails f);
                Agent.usage_cost := 1 |}
    | _ =>
        Some {| Agent.response :=
                  Agent.CapabilityRequests
                    [{| Agent.capability := "extract_flights"; Agent.arguments := "" |}];
                Agent.usage_cost := 1 |}
    end.

(** The extraction engine that reads the eight flights off the page. *)
Definition reads_page : ExtractionEngine := always candidate_pool.

(** The run context [main] is written to give the search agent: its
    constraints and the ledger at location 0. *)
Definition search_ctx : Agent.RunContext Deps :=
  {| Agent.ctx_deps := main_deps; Agent.ctx_usage := 0 |}.

Definition seat_1A : SeatPreference :=
  {| row := 1; seat := "A"; validated := eq_refl |}.

(** A world with one empty ledger, at location 0, and the given input. *)
Definition start (lines : list string) : world :=
  {| ledgers := [Ledger.empty]; stdin := lines; trace := [] |}.

End Scenario.

(** ** weather_agent.py: [get_lat_lng] *)

Module Geocode.

Section Tool.

(** A coordinate is a value of the JSON response; its type is left open,
as are the two constants of the dummy answer, [51.1] and [-0.1]. *)
Variable Coordinate : Type.
Variable london_lat london_lng : Coordinate.

(** An entry of the list the geocoding API answers with: the keys
['lat'] and ['lon']. *)
Record place : Type := { lat : Coordinate; lon : Coordinate }.

(** What the geocoding API answers: an error status, on which
[r.raise_for_status()] raises, or the list [r.json()]. *)
Inductive response : Type :=
| ErrorStatus
| Body (data : list place).

(** The API is outside the program: it answers a location description. *)
Variable geocode : string -> response.

(** The dictionary [get_lat_lng] returns: the keys ['lat'] and ['lng']. *)
Record position : Type := { position_lat : Coordinate; position_lng : Coordinate }.

(** [get_lat_lng(ctx, location_description)] *)
Definition get_lat_lng (deps : Weather.Deps) (location_description : string)
    : Py.result position :=
  match Weather.geo_api_key deps with
  | None => Py.Return {| position_lat := london_lat; position_lng := london_lng |}
  | Some _ =>
      match geocode location_description with
      | ErrorStatus => Py.Raise Py.HTTPStatusError
      | Body data =>
          match data with
          | first :: _ =>
              Py.Return {| position_lat := lat first; position_lng := lon first |}
          | [] => Py.Raise (Py.ModelRetry "Could not find location")
          end
      end
  end.

End Tool.

End Geocode.

(** ** pydanticAI and riza/pydantic.py: [log_messages] and the chat loop *)

Module Chat.

Section Script.

(** A message of the agent and the value of an attribute are library
objects; [role_of] and [content_of] give the attribute when the message
has it ([hasattr]), and [str_of] is [str(m)]. *)
Variable Message : Type.
Variable Value : Type.
Variable role_of : Message -> option Value.
Variable content_of : Message -> option Value.
Variable str_of : Message -> string.

(** A value of the serialized dictionary: an attribute of the message or
a string the function puts in its place. *)
Inductive field : Type :=
| Attribute (v : Value)
| Text (s : string).

Record entry : Type := { role : field; content : field }.

(** The list [serialized] of [log_messages]. *)
Definition serialized (messages : list Message) : list entry :=
  List.map
    (fun m =>
       {| role := match role_of m with
                  | Some v => Attribute v
                  | None => Text "unknown"
                  end;
          content := match content_of m with
                     | Some v => Attribute v
                     | None => Text (str_of m)
                     end |})
    messages.

(** The result of a run: [result.data] and [result.all_messages()]. *)
Record RunResult : Type := { data : string; all_messages : list Message }.

(** [code_agent.run_sync(prompt, message_history=...)]: the agent is
outside the loop. *)
Variable run_sync : string -> option (list Message) -> Py.result RunResult.

(** What the script has done: the lines of input not yet read, the lines
written by [print], the content of [all_messages.json] (the file is opened
with mode ["w"], so each call of [log_messages] replaces it), and the calls
of [run_sync] with their arguments. *)
Record state : Type := {
  unread : list string;
  printed : list string;
  log_file : option (list entry);
  calls : list (string * option (list Message))
}.

Definition start (lines : list string) : state :=
  {| unread := lines; printed := []; log_file := None; calls := [] |}.

(** [log_messages(messages)] *)
Definition log_messages (messages : list Message) (st : state) : state :=
  {| unread := unread st; printed := printed st;
     log_file := Some (serialized messages); calls := calls st |}.

(** The [while usr_msg != "quit"] loop, entered with the result of the
last run: it prints the result, reads a line ([EOFError] at the end of the
input), runs the agent on it with the messages so far, logs the messages of
the new result, and only then compares the line with ["quit"]. *)
Fixpoint loop (result : RunResult) (lines : list string) (st : state)
    : Py.result unit * state :=
  let st1 := {| unread := unread st; printed := printed st ++ [data result];
                log_file := log_file st; calls := calls st |} in
  match lines with
  | [] => (Py.Raise Py.EOFError, st1)
  | usr_msg :: rest =>
      let st2 := {| unread := rest; printed := printed st1; log_file := log_file st1;
                    calls := calls st1 ++ [(usr_msg, Some (all_messages result))] |} in
      match run_sync usr_msg (Some (all_messages result)) with
      | Py.Raise e => (Py.Raise e, st2)
      | Py.Return result' =>
          let st3 := log_messages (all_messages result') st2 in
          if String.eqb usr_msg "quit" then (Py.Return tt, st3)
          else loop result' rest st3
      end
  end.

Definition greeting : string := "Please introduce yourself.".

(** The script under [if __name__ == "__main__"], on the given input. *)
Definition script (lines : list string) : Py.result unit * state :=
  let st := start lines in
  let st0 := {| unread := unread st; printed := printed st; log_file := log_file st;
                calls := calls st ++ [(greeting, None)] |} in
  match run_sync greeting None with
  | Py.Raise e => (Py.Raise e, st0)
  | Py.Return result => loop result lines st0
  end.

(** Every call after the first is given the messages of the result of
the call before it. *)
Definition linked (cs : list (string * option (list Message))) : Prop :=
  forall i p h, cs !! S i = Some (p, h) ->
    exists p0 h0 r, cs !! i = Some (p0, h0) /\
                    run_sync p0 h0 = Py.Return r /\
                    h = Some (all_messages r).

End Script.

End Chat.

(** ** stream_markdown.py: [main] *)

Module Stream.

(** [models]: the model names and the environment variable of each. *)
Definition models : list (string * string) :=
  [("gemini-1.5-flash", "GEMINI_API_KEY");
   ("openai:gpt-4o-mini", "OPENAI_API_KEY");
   ("groq:llama-3.1-70b-versatile", "GROQ_API_KEY")].

Definition prompt : string := "Show me a short example of using Pydantic.".

Inductive event : Type :=
| CodeBlocksInstalled
| Logged (text : string)
| Streamed (model : string) (user_prompt : string).

(** [env_var is os.environ]: the identity test between a string and the
mapping [os.environ].  Two objects of different classes are never the same
object, whatever the mapping holds. *)
Definition is_environ (env_var : string) (environ : gmap string string) : bool :=
  false.

(** The [for] loop of [main]: the three statements under the [if],
the last [console.log] included. *)
Fixpoint for_each_model (ms : list (string * string)) (environ : gmap string string)
    : list event :=
  match ms with
  | [] => []
  | (model, env_var) :: rest =>
      (if is_environ env_var environ
       then [Logged ("Using " +:+ model +:+ ": " +:+ model);
             Streamed model prompt;
             Logged (model +:+ " requires " +:+ env_var +:+ " to be set.")]
       else [])
      ++ for_each_model rest environ
  end.

(** [main()] *)
Definition main (environ : gmap string string) : list event :=
  [CodeBlocksInstalled; Logged ("Asking: " +:+ prompt +:+ "...")]
  ++ for_each_model models environ.

Definition streams (e : event) : bool :=
  match e with
  | Streamed _ _ => true
  | _ => false
  end.

End Stream.

(** ** flight_booking.py: [WebScraperAgent.run] *)

Module Scraper.

(** [class WebScrapeOutput(BaseModel)] *)
Record WebScrapeOutput : Type := { data : option string }.

(** How the body of the [try] ends.  The two imports come first; the
request ([requests.get], [raise_for_status]) raises a
[RequestException]; the parsing raises some other exception; otherwise the
text of the page is there. *)
Inductive body : Type :=
| ImportFails (module_name : string)
| RequestFails (error : string)
| ParseFails (error : string)
| Parsed (text : string).

(** Whether the local name [requests] is bound when the body ends: the
statement [import requests] binds it, and it is the second import. *)
Definition requests_bound (b : body) : bool :=
  match b with
  | ImportFails _ => false
  | _ => true
  end.

Inductive outcome : Type :=
| Returned (output : WebScrapeOutput) (printed : list string)
| RaisedUnboundLocalError.

(** [run(self, input)].  On an exception the first [except] clause
evaluates [requests.exceptions.RequestException]; with [requests] unbound
that evaluation raises [UnboundLocalError], which leaves the function. *)
Definition run (b : body) : outcome :=
  match b with
  | Parsed text => Returned {| data := Some text |} []
  | _ =>
      if requests_bound b then
        match b with
        | RequestFails error =>
            Returned {| data := None |} ["HTTP Request Error: " +:+ error]
        | ParseFails error =>
            Returned {| data := None |} ["Scraping Error: " +:+ error]
        | _ => RaisedUnboundLocalError
        end
      else RaisedUnboundLocalError
  end.

End Scraper.

(** ** Counting the runs of the search agent in a trace *)

Definition is_RunSearch (e : event) : bool :=
  match e with
  | RunSearch _ _ => true
  | _ => false
  end.

Definition search_runs (t : list event) : nat :=
  length (List.filter is_RunSearch t).

(** * Properties *)

(** ** Dates and strings *)

Lemma Date_eqb_eq (a b : Date.t) : Date.eqb a b = true <-> a = b.
Proof.
  destruct a as [y1 m1 d1], b as [y2 m2 d2]; unfold Date.eqb; simpl.
  rewrite !andb_true_iff, !Nat.eqb_eq. split.
  - intros [[-> ->] ->]; reflexivity.
  - intros [= -> -> ->]; auto.
Qed.

(** ** The result validator *)

Section ValidatorFacts.

Variable deps : Deps.
Variable f : FlightDetails.

Lemma field_matches_spec (c : ConstraintField) :
  field_matches deps f c = true <->
  match c with
  | Origin => origin f = req_origin deps
  | Destination => destination f = req_destination deps
  | TravelDate => date f = req_date deps
  end.
Proof.
  destruct c; simpl; [apply String.eqb_eq | apply String.eqb_eq | apply Date_eqb_eq].
Qed.

(** The list the code builds is the list of messages of the mismatched
    fields, in declaration order. *)
Lemma validation_errors_by_field :
  validation_errors deps f = List.map (mismatch_message deps f) (mismatched_fields deps f).
Proof.
  unfold validation_errors, mismatched_fields, constraint_fields; simpl.
  destruct (String.eqb (origin f) (req_origin deps));
    destruct (String.eqb (destination f) (req_destination deps));
    destruct (Date.eqb (date f) (req_date deps)); reflexivity.
Qed.

Lemma no_mismatch_iff : mismatched_fields deps f = [] <-> meets_constraints deps f.
Proof.
  unfold meets_constraints.
  rewrite <- (field_matches_spec Origin), <- (field_matches_spec Destination),
    <- (field_matches_spec TravelDate).
  unfold mismatched_fields, constraint_fields; simpl.
  destruct (String.eqb (origin f) (req_origin deps));
    destruct (String.eqb (destination f) (req_destination deps));
    destruct (Date.eqb (date f) (req_date deps)); simpl;
    split; try discriminate; try tauto; intros (? & ? & ?); discriminate.
Qed.

Lemma validate_result_cases :
  validate_result deps (IsFlightDetails f) =
  match mismatched_fields deps f with
  | [] => Py.Return (IsFlightDetails f)
  | mismatched =>
      Py.Raise (Py.ModelRetry
                  (Py.join Py.newline (List.map (mismatch_message deps f) mismatched)))
  end.
Proof.
  unfold validate_result. rewrite validation_errors_by_field.
  destruct (mismatched_fields deps f); reflexivity.
Qed.

End ValidatorFacts.

(** C1. For a candidate flight and a constraint set, [validate_result]
    accepts (returns the flight) if and only if origin, destination and date
    each equal the required value; otherwise it raises [ModelRetry] with the
    messages of the mismatched fields, one per field, in the order origin,
    destination, date.  The validator is a function of its input, so two runs
    on the same input build the same list. *)
Theorem validate_result_contract (deps : Deps) (f : FlightDetails) :
  (validate_result deps (IsFlightDetails f) = Py.Return (IsFlightDetails f)
     <-> meets_constraints deps f) /\
  (Py.returns (validate_result deps (IsFlightDetails f)) <-> meets_constraints deps f) /\
  validation_errors deps f = List.map (mismatch_message deps f) (mismatched_fields deps f) /\
  length (validation_errors deps f) = length (mismatched_fields deps f) /\
  mismatched_fields deps f
    = List.filter (fun c => negb (field_matches deps f c)) [Origin; Destination; TravelDate] /\
  validate_result deps (IsFlightDetails f) =
    match mismatched_fields deps f with
    | [] => Py.Return (IsFlightDetails f)
    | mismatched =>
        Py.Raise (Py.ModelRetry
                    (Py.join Py.newline (List.map (mismatch_message deps f) mismatched)))
    end.
Proof.
  pose proof (validate_result_cases deps f) as Hcases.
  pose proof (no_mismatch_iff deps f) as Hiff.
  assert (Haccept : validate_result deps (IsFlightDetails f) = Py.Return (IsFlightDetails f)
                    <-> meets_constraints deps f).
  { rewrite <- Hiff, Hcases.
    destruct (mismatched_fields deps f); split; congruence. }
  split; [exact Haccept |].
  split.
  { rewrite <- Haccept. split.
    - intros [r Hret]. rewrite Hcases in Hret |- *.
      destruct (mismatched_fields deps f); [reflexivity | discriminate].
    - intros Hret. eexists; exact Hret. }
  split; [apply validation_errors_by_field |].
  split; [rewrite validation_errors_by_field; apply length_map |].
  split; [reflexivity | exact Hcases].
Qed.

(** ** The flight-search scenario *)

(** The structured pool is the page: writing the entries back in the
    layout of the page gives the constant of the program. *)
Lemma candidate_pool_is_the_page : Listing.render Listing.entries = flights_web_page.
Proof. vm_compute. reflexivity. Qed.

(** The claim C2 as stated does not hold: it is not the case that exactly
    one flight of the pool matches the three constraints with price 350;
    flight NYC-LA101 matches too. *)
Lemma single_match_refuted :
  ~ (exists f, matching_flights main_deps candidate_pool = [f] /\ price f = 350%Z).
Proof.
  intros (f & Hone & _). vm_compute in Hone. discriminate Hone.
Qed.

(** C2, amended.  The pool of the page holds exactly two flights that
    match origin SFO, destination ANC and date 2025-01-10: SFO-AK123 at 350
    and NYC-LA101 at 250.  The result validator accepts these two and turns
    down the six other flights of the pool. *)
Theorem flight_search_scenario :
  Listing.render Listing.entries = flights_web_page /\
  List.map (fun f => (flight_number f, price f)) (matching_flights main_deps candidate_pool)
    = [("SFO-AK123", 350%Z); ("NYC-LA101", 250%Z)] /\
  List.map (fun f => (flight_number f,
                      forallb (field_matches main_deps f) constraint_fields))
           candidate_pool
    = [("SFO-AK123", true); ("SFO-AK456", false); ("SFO-AK789", false);
       ("NYC-LA101", true); ("CHI-MIA202", false); ("BOS-SEA303", false);
       ("DFW-DEN404", false); ("ATL-HOU505", false)] /\
  List.map (fun f => (flight_number f, accepted_by_validator main_deps f)) candidate_pool
    = [("SFO-AK123", true); ("SFO-AK456", false); ("SFO-AK789", false);
       ("NYC-LA101", true); ("CHI-MIA202", false); ("BOS-SEA303", false);
       ("DFW-DEN404", false); ("ATL-HOU505", false)] /\
  validate_result main_deps (IsFlightDetails Scenario.SFO_AK123)
    = Py.Return (IsFlightDetails Scenario.SFO_AK123) /\
  validate_result main_deps (IsFlightDetails Scenario.NYC_LA101)
    = Py.Return (IsFlightDetails Scenario.NYC_LA101) /\
  price Scenario.SFO_AK123 = 350%Z /\
  price Scenario.NYC_LA101 = 250%Z.
Proof.
  split; [apply candidate_pool_is_the_page |].
  repeat split; vm_compute; reflexivity.
Qed.

(** ** The [execute_code] tool *)

(** C9. [execute_code] returns a string exactly when the execution exits
    with code 0 and a non-empty standard output, and the string it returns is
    that output; in every other case it raises [ModelRetry].  It never
    returns the empty string. *)
Theorem execute_code_contract (exec : string -> Riza.execution) (code : string) :
  (Py.returns (Riza.execute_code exec code)
     <-> Riza.exit_code (exec code) = 0%Z /\ Riza.stdout (exec code) <> "") /\
  (Riza.execute_code exec code = Py.Return (Riza.stdout (exec code))
   \/ exists message, Riza.execute_code exec code = Py.Raise (Py.ModelRetry message)) /\
  ((Riza.exit_code (exec code) = 0%Z /\ Riza.stdout (exec code) <> "")
   \/ exists message, Riza.execute_code exec code = Py.Raise (Py.ModelRetry message)) /\
  Riza.execute_code exec code <> Py.Return "".
Proof.
  unfold Riza.execute_code, Py.returns.
  destruct (Z.eqb_spec (Riza.exit_code (exec code)) 0) as [Hexit | Hexit]; simpl.
  - destruct (String.eqb_spec (Riza.stdout (exec code)) "") as [Hout | Hout].
    + split; [split; [intros [a Ha]; discriminate | intros [_ Hne]; contradiction] |].
      split; [right; eexists; reflexivity |].
      split; [right; eexists; reflexivity | discriminate].
    + split; [split; [intros _; split; assumption | intros _; eexists; reflexivity] |].
      split; [left; reflexivity |].
      split; [left; split; assumption |].
      intros [= Heq]. contradiction.
  - split; [split; [intros [a Ha]; discriminate | intros [He _]; contradiction] |].
    split; [right; eexists; reflexivity |].
    split; [right; eexists; reflexivity | discriminate].
Qed.

(** ** The [get_weather] tool *)

(** The table itself is sound: read with [get], a known code gives its
    name and an unknown code gives the fallback. *)
Lemma code_lookup_get_examples :
  Weather.dict_get Weather.code_lookup 1000 "Unknown" = "Clear, Sunny" /\
  Weather.dict_get Weather.code_lookup 8000 "Unknown" = "Thunderstorm" /\
  Weather.dict_get Weather.code_lookup 1234 "Unknown" = "Unknown".
Proof. repeat split; vm_compute; reflexivity. Qed.

(** C10, the behaviour of the code.  With a weather API key and a
    well-formed response, [get_weather] calls the table [code_lookup] as if
    it were a function, so it raises [TypeError] and returns no description,
    for known and unknown codes alike. *)
Theorem get_weather_raises_TypeError (Temperature : Type)
    (format_0f : Temperature -> string) (key : string) (geo : option string)
    (v : Weather.values Temperature) :
  Weather.get_weather Temperature format_0f
      {| Weather.weather_api_key := Some key; Weather.geo_api_key := geo |}
      (Weather.Body Temperature v)
    = Py.Raise (Py.TypeError "'dict' object is not callable").
Proof. reflexivity. Qed.

(** With a key, [get_weather] returns on no response at all. *)
Lemma get_weather_never_returns (Temperature : Type)
    (format_0f : Temperature -> string) (key : string) (geo : option string)
    (answer : Weather.response Temperature) :
  ~ Py.returns (Weather.get_weather Temperature format_0f
                  {| Weather.weather_api_key := Some key; Weather.geo_api_key := geo |}
                  answer).
Proof. intros [r Hr]. destruct answer; discriminate Hr. Qed.

(** ** The usage ledger *)

Section LedgerFacts.

Variable ceiling : nat.

Lemma checked_charge_cases (c : nat) (u : Ledger.Usage) :
  (Ledger.consumed u + c <= ceiling /\
   Ledger.checked_charge ceiling c u = (Ledger.Charged, Ledger.charge c u))
  \/ (ceiling < Ledger.consumed u + c /\
      Ledger.checked_charge ceiling c u = (Ledger.BudgetExceeded, u)).
Proof.
  unfold Ledger.checked_charge, Ledger.check.
  destruct (Nat.leb_spec (Ledger.consumed u + c) ceiling); [left | right]; auto.
Qed.

Lemma running_sum_cons (c : nat) (rest : list nat) (k : nat) :
  Ledger.running_sum (c :: rest) (S k) = c + Ledger.running_sum rest k.
Proof. reflexivity. Qed.

(** The sequence of charges, characterised by the running sums. *)
Lemma charge_all_spec (charges : list nat) : forall u : Ledger.Usage,
  match Ledger.charge_all ceiling charges u with
  | (Some k, u') =>
      k < length charges /\
      Forall (fun j => Ledger.consumed u + Ledger.running_sum charges j <= ceiling)
             (seq 1 k) /\
      ceiling < Ledger.consumed u + Ledger.running_sum charges (S k) /\
      u' = {| Ledger.consumed := Ledger.consumed u + Ledger.running_sum charges k |}
  | (None, u') =>
      Forall (fun j => Ledger.consumed u + Ledger.running_sum charges j <= ceiling)
             (seq 1 (length charges)) /\
      u' = {| Ledger.consumed :=
                Ledger.consumed u + Ledger.running_sum charges (length charges) |}
  end.
Proof.
  induction charges as [| c rest IH]; intros u.
  - simpl. split; [constructor |].
    destruct u as [n]; unfold Ledger.running_sum; simpl. f_equal. lia.
  - cbn [Ledger.charge_all].
    destruct (checked_charge_cases c u) as [[Hle ->] | [Hgt ->]].
    + specialize (IH (Ledger.charge c u)).
      destruct (Ledger.charge_all ceiling rest (Ledger.charge c u)) as [[k |] u''];
        cbn [fmap option_fmap option_map]; cbn [Ledger.charge Ledger.consumed] in IH.
      * destruct IH as (Hk & Hall & Hover & ->).
        split; [simpl; lia |]. split.
        { change (seq 1 (S k)) with (1 :: seq 2 k). constructor.
          - unfold Ledger.running_sum; simpl. lia.
          - rewrite <- seq_shift. apply Forall_map.
            eapply Forall_impl; [exact Hall |].
            intros j Hj. unfold compose. rewrite running_sum_cons.
            simpl in Hj. lia. }
        split; [rewrite running_sum_cons; lia |].
        rewrite running_sum_cons. f_equal. lia.
      * destruct IH as (Hall & ->).
        split.
        { change (length (c :: rest)) with (S (length rest)).
          change (seq 1 (S (length rest))) with (1 :: seq 2 (length rest)). constructor.
          - unfold Ledger.running_sum; simpl. lia.
          - rewrite <- seq_shift. apply Forall_map.
            eapply Forall_impl; [exact Hall |].
            intros j Hj. unfold compose. rewrite running_sum_cons.
            simpl in Hj. lia. }
        change (length (c :: rest)) with (S (length rest)).
        rewrite running_sum_cons. f_equal. lia.
    + split; [simpl; lia |]. split; [constructor |]. split.
      * unfold Ledger.running_sum; simpl. lia.
      * destruct u as [n]; unfold Ledger.running_sum; simpl. f_equal. lia.
Qed.

End LedgerFacts.

(** C5.  A single check fails exactly when the counter after the charge
    would exceed the ceiling, and a failed check leaves the ledger as it was.
    For a sequence of charges, the rejected charge is the first one whose
    running sum exceeds the ceiling: every earlier running sum is within the
    ceiling, and the counter at the end is the sum of the charges before the
    rejected one.  Without a rejected charge every running sum is within the
    ceiling and the counter is the sum of all charges. *)
Theorem budget_check_contract (ceiling : nat) (charges : list nat) (u : Ledger.Usage) :
  (forall c,
     (Ledger.consumed u + c <= ceiling /\
      Ledger.checked_charge ceiling c u = (Ledger.Charged, Ledger.charge c u))
     \/ (ceiling < Ledger.consumed u + c /\
         Ledger.checked_charge ceiling c u = (Ledger.BudgetExceeded, u))) /\
  match Ledger.charge_all ceiling charges u with
  | (Some k, u') =>
      k < length charges /\
      Forall (fun j => Ledger.consumed u + Ledger.running_sum charges j <= ceiling)
             (seq 1 k) /\
      ceiling < Ledger.consumed u + Ledger.running_sum charges (S k) /\
      u' = {| Ledger.consumed := Ledger.consumed u + Ledger.running_sum charges k |}
  | (None, u') =>
      Forall (fun j => Ledger.consumed u + Ledger.running_sum charges j <= ceiling)
             (seq 1 (length charges)) /\
      u' = {| Ledger.consumed :=
                Ledger.consumed u + Ledger.running_sum charges (length charges) |}
  end.
Proof.
  split.
  - intros c. apply checked_charge_cases.
  - apply charge_all_spec.
Qed.

(** ** The session loop *)

Section SessionFacts.

Variable search_engine : SearchEngine.
Variable extraction_engine : ExtractionEngine.
Variable seat_engine : SeatEngine.
Variable fuel : nat.

(** No run result has an attribute [all]: the expression
    [result.all.messages(...)] raises [AttributeError] on every result. *)
Lemma all_dot_messages_raises {R Obs : Type} (result : Agent.RunResult R Obs)
    (content : option string) :
  all_dot_messages result content = Py.Raise (Py.AttributeError "all").
Proof. reflexivity. Qed.

(** One iteration of the loop on the "not found" variant: the loop prints
    and ends; the agent is run once. *)
Lemma session_loop_no_flight (rounds : nat) (deps : Deps) (usage : loc)
    (history : option (list SearchTurn)) (w : world)
    (result : Agent.RunResult SearchResult (list FlightDetails)) (s : store) :
  Agent.run (search_agent extraction_engine fuel) search_engine fuel
    (Some (search_prompt deps)) deps (Some usage) history (Some usage_limits)
    (ledgers w) = (Some (Py.Return result), s) ->
  Agent.data result = IsNoFlightFound ->
  session_loop search_engine extraction_engine seat_engine fuel (S rounds) deps usage
    history w
  = (Some (Py.Return tt),
     {| ledgers := s; stdin := stdin w;
        trace := trace w ++ [RunSearch (search_prompt deps) history;
                             Print "No flight found"] |}).
Proof.
  intros Hrun Hdata. cbn [session_loop].
  cbn [emit ledgers]. rewrite Hrun, Hdata.
  unfold emit, with_ledgers; cbn [ledgers stdin trace].
  rewrite <- app_assoc. reflexivity.
Qed.

(** One iteration of the loop on a flight that the caller does not buy:
    the loop ends in [AttributeError]; the agent is not run again. *)
Lemma session_loop_keep_searching (rounds : nat) (deps : Deps) (usage : loc)
    (history : option (list SearchTurn)) (w : world)
    (result : Agent.RunResult SearchResult (list FlightDetails)) (s : store)
    (flight : FlightDetails) (answer : string) (rest : list string) :
  Agent.run (search_agent extraction_engine fuel) search_engine fuel
    (Some (search_prompt deps)) deps (Some usage) history (Some usage_limits)
    (ledgers w) = (Some (Py.Return result), s) ->
  Agent.data result = IsFlightDetails flight ->
  read_choice (Some ["buy"; "search"; ""]) (stdin w) = (Py.Return answer, rest) ->
  answer <> "buy" ->
  session_loop search_engine extraction_engine seat_engine fuel (S rounds) deps usage
    history w
  = (Some (Py.Raise (Py.AttributeError "all")),
     {| ledgers := s; stdin := rest;
        trace := trace w ++
          [RunSearch (search_prompt deps) history;
           PrintFlightFound flight;
           Ask "Do you want to buy this flight, or keep searching? (buy/*search)"] |}).
Proof.
  intros Hrun Hdata Hread Hne. cbn [session_loop].
  cbn [emit ledgers]. rewrite Hrun, Hdata.
  unfold Prompt_ask, emit, with_ledgers; cbn [ledgers stdin trace].
  rewrite Hread.
  apply String.eqb_neq in Hne. rewrite Hne.
  rewrite all_dot_messages_raises.
  rewrite <- !app_assoc. reflexivity.
Qed.

(** [find_seat] hands back only what the agent produced as a
    [SeatPreference], and such a value satisfies the field constraints. *)
Lemma find_seat_returns_valid (rounds : nat) : forall (usage : loc)
    (history : option (list SeatTurn)) (w w' : world) (p : SeatPreference),
  find_seat seat_engine fuel rounds usage history w = (Some (Py.Return p), w') ->
  (1 <= row p <= 30)%Z /\ seat p ∈ seat_letters.
Proof.
  intros usage history w w' p _.
  pose proof (validated p) as Hok. unfold SeatPreference_fields_ok in Hok.
  apply andb_true_iff in Hok as [Hrow Hseat].
  apply andb_true_iff in Hrow as [Hge Hle].
  apply Z.leb_le in Hge. apply Z.leb_le in Hle.
  apply bool_decide_eq_true in Hseat. auto.
Qed.

(** On the [Failed] variant [find_seat] does not ask again: it prints and
    ends in [AttributeError]. *)
Lemma find_seat_failed (rounds : nat) (usage : loc)
    (history : option (list SeatTurn)) (w : world) (answer : string)
    (rest : list string) (result : Agent.RunResult SeatResult unit) (s : store) :
  stdin w = answer :: rest ->
  Agent.run seat_preference_agent seat_engine fuel (Some (Py.strip answer)) tt
    (Some usage) history (Some usage_limits) (ledgers w)
    = (Some (Py.Return result), s) ->
  Agent.data result = IsFailed ->
  find_seat seat_engine fuel (S rounds) usage history w
  = (Some (Py.Raise (Py.AttributeError "all")),
     {| ledgers := s; stdin := rest;
        trace := trace w ++
          [Ask "What seat would you like?";
           RunSeat (Py.strip answer) history;
           Print "Could not understand seat preference. Please try again."] |}).
Proof.
  intros Hin Hrun Hdata. cbn [find_seat].
  unfold Prompt_ask, emit, with_ledgers; cbn [ledgers stdin trace].
  rewrite Hin. cbn [read_choice ledgers stdin trace].
  rewrite Hrun, Hdata. rewrite all_dot_messages_raises.
  cbn [ledgers stdin trace]. rewrite <- !app_assoc. reflexivity.
Qed.

End SessionFacts.

(** C6.  [validate_result] returns the "not found" variant as it is, for
    every constraint set; and when the run of the search agent yields that
    variant, the session loop prints "No flight found" and ends: the trace
    holds one run of the agent and no further one. *)
Theorem no_flight_found_handling (search_engine : SearchEngine)
    (extraction_engine : ExtractionEngine) (seat_engine : SeatEngine)
    (fuel rounds : nat) (deps : Deps) (usage : loc)
    (history : option (list SearchTurn)) (w : world)
    (result : Agent.RunResult SearchResult (list FlightDetails)) (s : store) :
  Agent.run (search_agent extraction_engine fuel) search_engine fuel
    (Some (search_prompt deps)) deps (Some usage) history (Some usage_limits)
    (ledgers w) = (Some (Py.Return result), s) ->
  Agent.data result = IsNoFlightFound ->
  (forall constraints, validate_result constraints IsNoFlightFound = Py.Return IsNoFlightFound) /\
  session_loop search_engine extraction_engine seat_engine fuel (S rounds) deps usage
    history w
  = (Some (Py.Return tt),
     {| ledgers := s; stdin := stdin w;
        trace := trace w ++ [RunSearch (search_prompt deps) history;
                             Print "No flight found"] |}).
Proof.
  intros Hrun Hdata. split.
  - intros constraints. reflexivity.
  - eapply session_loop_no_flight; eassumption.
Qed.

Lemma no_flight_found_handling_witness :
  session_loop (Scenario.always IsNoFlightFound) Scenario.reads_page
    (Scenario.always IsFailed) 8 1 main_deps 0 None (Scenario.start ["search"])
  = (Some (Py.Return tt),
     {| ledgers := [{| Ledger.consumed := 1 |}]; stdin := ["search"];
        trace := [RunSearch (search_prompt main_deps) None; Print "No flight found"] |}).
Proof.
  refine (proj2 (no_flight_found_handling (Scenario.always IsNoFlightFound)
                   Scenario.reads_page (Scenario.always IsFailed) 8 0 main_deps 0 None
                   (Scenario.start ["search"])
                   {| Agent.data := IsNoFlightFound;
                      Agent.all_messages :=
                        [Agent.UserPrompt (Some (search_prompt main_deps));
                         Agent.EngineResult IsNoFlightFound];
                      Agent.usage := 0 |}
                   [{| Ledger.consumed := 1 |}] _ _)).
  - vm_compute. reflexivity.
  - reflexivity.
Defined.

(** C7, the behaviour of the code.  After the answer "search" the loop
    evaluates [result.all.messages(...)], which raises [AttributeError]: the
    session ends there, with one run of the search agent in the trace and no
    second invocation. *)
Theorem keep_searching_raises_AttributeError :
  session_loop (Scenario.always (IsFlightDetails Scenario.SFO_AK123)) Scenario.reads_page
    (Scenario.always (IsSeatPreference Scenario.seat_1A)) 8 5 main_deps 0 None
    (Scenario.start ["search"; "buy"; "1A"])
  = (Some (Py.Raise (Py.AttributeError "all")),
     {| ledgers := [{| Ledger.consumed := 1 |}];
        stdin := ["buy"; "1A"];
        trace := [RunSearch "Find me a flight from SFO to ANC on 2025-01-10" None;
                  PrintFlightFound Scenario.SFO_AK123;
                  Ask "Do you want to buy this flight, or keep searching? (buy/*search)"] |}).
Proof. vm_compute. reflexivity. Qed.

(** C8, the behaviour of the code.  When the seat agent produces [Failed],
    [find_seat] prints its message and then evaluates
    [result.all.messages()], which raises [AttributeError]: it does not ask
    again, and the next line of input stays unread. *)
Theorem find_seat_Failed_raises_AttributeError :
  find_seat (Scenario.always IsFailed) 8 5 0 None
    (Scenario.start ["somewhere nice"; "1A"])
  = (Some (Py.Raise (Py.AttributeError "all")),
     {| ledgers := [{| Ledger.consumed := 1 |}];
        stdin := ["1A"];
        trace := [Ask "What seat would you like?";
                  RunSeat "somewhere nice" None;
                  Print "Could not understand seat preference. Please try again."] |}).
Proof. vm_compute. reflexivity. Qed.

(** ** The store of ledgers *)

Lemma charges_only_refl (u : loc) (s : store) : charges_only u s s.
Proof. unfold charges_only. auto. Qed.

Lemma charges_only_trans (u : loc) (s1 s2 s3 : store) :
  charges_only u s1 s2 -> charges_only u s2 s3 -> charges_only u s1 s3.
Proof.
  intros (Hlen1 & Hframe1 & Hmono1) (Hlen2 & Hframe2 & Hmono2).
  split; [congruence |]. split.
  - intros v Hv. rewrite Hframe2, Hframe1; auto.
  - lia.
Qed.

Lemma ledger_at_insert (u : loc) (x : Ledger.Usage) (s : store) :
  ledger_at (<[u := x]> s) u = if decide (u < length s) then x else ledger_at s u.
Proof.
  unfold ledger_at. destruct (decide (u < length s)) as [Hlt | Hge].
  - rewrite list_lookup_insert_eq; [reflexivity | assumption].
  - rewrite list_insert_ge; [reflexivity | lia].
Qed.

Lemma charge_at_charges_only (limits : option Ledger.UsageLimits) (u : loc)
    (units : nat) (s s' : store) :
  charge_at limits u units s = Some s' -> charges_only u s s'.
Proof.
  unfold charge_at.
  destruct (Ledger.within limits units (ledger_at s u)); [| discriminate].
  intros [= <-]. split; [apply length_insert |]. split.
  - intros v Hv. apply list_lookup_insert_ne. congruence.
  - rewrite ledger_at_insert. destruct (decide (u < length s)); simpl; lia.
Qed.

Lemma within_weaken (limits : option Ledger.UsageLimits) (units units' : nat)
    (l : Ledger.Usage) :
  units' <= units ->
  Ledger.within limits units l = true -> Ledger.within limits units' l = true.
Proof.
  intros Hle. unfold Ledger.within, Ledger.check.
  destruct limits as [[[ceiling |]] |]; auto.
  rewrite !Nat.leb_le. lia.
Qed.

Lemma within_after_charge (limits : option Ledger.UsageLimits) (c cmax k : nat)
    (l : Ledger.Usage) :
  c <= cmax ->
  Ledger.within limits (cmax + k) l = true ->
  Ledger.within limits k (Ledger.charge c l) = true.
Proof.
  intros Hle. unfold Ledger.within, Ledger.check, Ledger.charge.
  destruct limits as [[[ceiling |]] |]; auto.
  cbn [Ledger.consumed]. rewrite !Nat.leb_le. lia.
Qed.

(** ** The turn orchestrator *)

Section OrchestratorFacts.

Context {D R Obs : Type}.
Variable agent : Agent.config D R Obs.
Variable engine : Agent.Engine R Obs.
Variable limits : option Ledger.UsageLimits.
Variable ctx : Agent.RunContext D.

Lemma attempts_in_app (h1 h2 : list (Agent.turn R Obs)) :
  Agent.attempts_in (h1 ++ h2) = Agent.attempts_in h1 + Agent.attempts_in h2.
Proof. unfold Agent.attempts_in. rewrite List.filter_app, length_app. reflexivity. Qed.

Lemma orchestrate_retries_exhausted (cmax : nat) (Hretry : Agent.always_retried agent engine ctx cmax) :
  forall (n fuel : nat) (history : list (Agent.turn R Obs)) (s : store),
    1 <= n -> n <= fuel ->
    Ledger.within limits (n * cmax) (ledger_at s (Agent.ctx_usage ctx)) = true ->
    exists history' s',
      Agent.orchestrate agent engine limits ctx fuel n history s
        = (Agent.Failed Py.RetriesExhausted, history', s') /\
      Agent.attempts_in history' = Agent.attempts_in history + n.
Proof.
  induction n as [| n IH]; intros fuel history s Hpos Hfuel Hwithin; [lia |].
  destruct fuel as [| fuel]; [lia |].
  destruct (Hretry history) as (r & c & message & Hengine & Hcost & Hvalid).
  cbn [Agent.orchestrate]. rewrite Hengine. cbn [Agent.usage_cost Agent.response].
  assert (Hcharge : Ledger.within limits c (ledger_at s (Agent.ctx_usage ctx)) = true).
  { eapply within_weaken; [| exact Hwithin]. simpl. lia. }
  unfold charge_at. rewrite Hcharge. rewrite Hvalid.
  destruct n as [| n].
  - eexists _, _. split; [reflexivity |].
    rewrite !attempts_in_app. unfold Agent.attempts_in; simpl. lia.
  - edestruct (IH fuel
                 ((history ++ [Agent.EngineResult r]) ++ [Agent.RetryFeedback message])
                 (<[Agent.ctx_usage ctx :=
                      Ledger.charge c (ledger_at s (Agent.ctx_usage ctx))]> s))
      as (history' & s' & Hrun & Hcount); [lia | lia | |].
    + rewrite ledger_at_insert. destruct (decide (Agent.ctx_usage ctx < length s)).
      * apply within_after_charge with (cmax := cmax); [assumption |].
        replace (cmax + S n * cmax) with (S (S n) * cmax) by lia. assumption.
      * eapply within_weaken; [| exact Hwithin]. lia.
    + eexists _, _. split; [exact Hrun |].
      rewrite Hcount, !attempts_in_app. unfold Agent.attempts_in; simpl. lia.
Qed.

End OrchestratorFacts.

(** ** The ledger across nested runs *)

Section LedgerSharing.

Context {D R Obs : Type}.
Variable agent : Agent.config D R Obs.
Variable engine : Agent.Engine R Obs.
Variable limits : option Ledger.UsageLimits.
Variable ctx : Agent.RunContext D.

(** Every registered tool only charges the ledger of the run. *)
Hypothesis handlers_charge_only :
  forall name handler, Agent.registry agent !! name = Some handler ->
  forall arguments s, charges_only (Agent.ctx_usage ctx) s (handler ctx arguments s).2.

Lemma resolve_charges_only (requests : list Agent.request) :
  forall (history : list (Agent.turn R Obs)) (s : store),
    charges_only (Agent.ctx_usage ctx) s (Agent.resolve agent ctx requests history s).2.
Proof.
  induction requests as [| q rest IH]; intros history s; cbn [Agent.resolve].
  - apply charges_only_refl.
  - destruct (Agent.registry agent !! Agent.capability q) as [handler |] eqn:Hlookup;
      [| apply charges_only_refl].
    pose proof (handlers_charge_only _ _ Hlookup (Agent.arguments q) s) as Hstep.
    destruct (handler ctx (Agent.arguments q) s) as [[[output | e] |] s'];
      cbn [snd] in Hstep |- *.
    + eapply charges_only_trans; [exact Hstep | apply IH].
    + destruct (Py.fatal e); [exact Hstep |].
      eapply charges_only_trans; [exact Hstep | apply IH].
    + exact Hstep.
Qed.

Lemma orchestrate_charges_only (fuel : nat) :
  forall (attempts : nat) (history : list (Agent.turn R Obs)) (s : store),
    charges_only (Agent.ctx_usage ctx) s
      (Agent.orchestrate agent engine limits ctx fuel attempts history s).2.
Proof.
  induction fuel as [| fuel IH]; intros attempts history s; cbn [Agent.orchestrate].
  - apply charges_only_refl.
  - destruct (engine history) as [answer |]; [| apply charges_only_refl].
    destruct (charge_at limits (Agent.ctx_usage ctx) (Agent.usage_cost answer) s)
      as [s1 |] eqn:Hcharge; [| apply charges_only_refl].
    apply charge_at_charges_only in Hcharge.
    destruct (Agent.response answer) as [r | requests].
    + destruct (Agent.validator agent ctx r) as [r' | e]; [exact Hcharge |].
      destruct e; try exact Hcharge.
      destruct attempts as [| [| more]]; try exact Hcharge.
      eapply charges_only_trans; [exact Hcharge | apply IH].
    + pose proof (resolve_charges_only requests
                    (history ++ [Agent.EngineRequests requests]) s1) as Hresolve.
      destruct (Agent.resolve agent ctx requests
                  (history ++ [Agent.EngineRequests requests]) s1)
        as [[[stopped |] history'] s2]; cbn [snd] in Hresolve |- *.
      * eapply charges_only_trans; eassumption.
      * eapply charges_only_trans; [exact Hcharge |].
        eapply charges_only_trans; [exact Hresolve | apply IH].
Qed.

End LedgerSharing.

(** A run that is handed a ledger works on that ledger and on no other. *)
Lemma run_charges_only {D R Obs : Type} (agent : Agent.config D R Obs)
    (engine : Agent.Engine R Obs) (fuel : nat) (user_prompt : option string)
    (deps : D) (u : loc) (history : option (list (Agent.turn R Obs)))
    (limits : option Ledger.UsageLimits) (s : store) :
  (forall name handler, Agent.registry agent !! name = Some handler ->
   forall arguments s0,
     charges_only u s0
       (handler {| Agent.ctx_deps := deps; Agent.ctx_usage := u |} arguments s0).2) ->
  charges_only u s
    (Agent.run agent engine fuel user_prompt deps (Some u) history limits s).2.
Proof.
  intros Hhandlers. unfold Agent.run.
  pose proof (orchestrate_charges_only agent engine limits
                {| Agent.ctx_deps := deps; Agent.ctx_usage := u |} Hhandlers fuel
                (Agent.retries agent)
                (default [] history ++ [Agent.UserPrompt user_prompt]) s) as Hrun.
  cbn [Agent.ctx_usage] in Hrun.
  destruct (Agent.orchestrate agent engine limits
              {| Agent.ctx_deps := deps; Agent.ctx_usage := u |} fuel
              (Agent.retries agent)
              (default [] history ++ [Agent.UserPrompt user_prompt]) s)
    as [[[r | e |] history'] s']; exact Hrun.
Qed.

Section SharingFacts.

Variable search_engine : SearchEngine.
Variable extraction_engine : ExtractionEngine.
Variable seat_engine : SeatEngine.
Variable fuel : nat.

(** The tool charges the ledger of the run it is called from. *)
Lemma extract_flights_charges_only (inner_fuel : nat)
    (ctx : Agent.RunContext Deps) (arguments : string)
    (s : store) :
  charges_only (Agent.ctx_usage ctx) s
    (extract_flights extraction_engine inner_fuel ctx arguments s).2.
Proof.
  unfold extract_flights.
  pose proof (run_charges_only extraction_agent extraction_engine inner_fuel
                (web_page_text (Agent.ctx_deps ctx)) tt (Agent.ctx_usage ctx) None None s)
    as Hrun.
  destruct (Agent.run extraction_agent extraction_engine inner_fuel
              (web_page_text (Agent.ctx_deps ctx)) tt (Some (Agent.ctx_usage ctx))
              None None s) as [[[result | e] |] s'];
    cbn [snd] in Hrun |- *; apply Hrun;
    intros name handler Hlookup; cbn in Hlookup; rewrite lookup_empty in Hlookup;
    discriminate.
Qed.






(** When the extraction engine answers the page with a list of flights,
    the tool returns it and the cost is on the ledger it was given. *)
Lemma extract_flights_charges_session_ledger (inner_fuel : nat)
    (ctx : Agent.RunContext Deps) (arguments : string) (s : store)
    (flights : list FlightDetails) (c : nat) :
  extraction_engine [Agent.UserPrompt (web_page_text (Agent.ctx_deps ctx))]
    = Some {| Agent.response := Agent.StructuredResult flights;
              Agent.usage_cost := c |} ->
  extract_flights extraction_engine (S inner_fuel) ctx arguments s
    = (Some (Py.Return flights),
       <[Agent.ctx_usage ctx := Ledger.charge c (ledger_at s (Agent.ctx_usage ctx))]> s).
Proof.
  intros Hengine. unfold extract_flights, Agent.run.
  cbn [Agent.orchestrate default app]. rewrite Hengine.
  reflexivity.
Qed.

End SharingFacts.



(** In a session where the engine calls the tool before it answers, the
    one ledger of the session has counted the two requests of the search run
    and the request of the nested extraction run. *)
Lemma nested_cost_on_session_ledger :
  ledgers (session_loop (Scenario.tool_then Scenario.SFO_AK123) Scenario.reads_page
             (Scenario.always (IsSeatPreference Scenario.seat_1A)) 8 2 main_deps 0 None
             (Scenario.start ["buy"; "1A"])).2
  = [{| Ledger.consumed := 4 |}].
Proof. vm_compute. reflexivity. Qed.

(** [main] as written does not reach its loop: building the constraints
    calls the module [datetime]. *)
Lemma main_raises_TypeError (search_engine : SearchEngine)
    (extraction_engine : ExtractionEngine) (seat_engine : SeatEngine)
    (fuel rounds : nat) (w : world) :
  main search_engine extraction_engine seat_engine fuel rounds w
  = (Some (Py.Raise (Py.TypeError "'module' object is not callable")), w).
Proof. reflexivity. Qed.

(** ** The retry bound *)

Section RetryBound.

Context {D R Obs : Type}.
Variable agent : Agent.config D R Obs.
Variable engine : Agent.Engine R Obs.
Variable limits : option Ledger.UsageLimits.
Variable ctx : Agent.RunContext D.

(** A capability round adds no candidate result to the history. *)
Lemma resolve_attempts (requests : list Agent.request) :
  forall (history : list (Agent.turn R Obs)) (s : store),
    Agent.attempts_in (Agent.resolve agent ctx requests history s).1.2
    = Agent.attempts_in history.
Proof.
  induction requests as [| q rest IH]; intros history s; cbn [Agent.resolve];
    [reflexivity |].
  destruct (Agent.registry agent !! Agent.capability q) as [handler |]; [| reflexivity].
  destruct (handler ctx (Agent.arguments q) s) as [[[output | e] |] s'].
  - rewrite IH, attempts_in_app. unfold Agent.attempts_in; simpl. lia.
  - destruct (Py.fatal e); [reflexivity |].
    rewrite IH, attempts_in_app. unfold Agent.attempts_in; simpl. lia.
  - reflexivity.
Qed.

(** A capability round stops the run only for want of fuel in a handler or
    on a fatal failure. *)
Lemma resolve_stopped (requests : list Agent.request) :
  forall (history : list (Agent.turn R Obs)) (s : store) (stopped : Agent.outcome R),
    (Agent.resolve agent ctx requests history s).1.1 = Some stopped ->
    stopped = Agent.OutOfFuel \/ exists e, stopped = Agent.Failed e /\ Py.fatal e = true.
Proof.
  induction requests as [| q rest IH]; intros history s stopped; cbn [Agent.resolve];
    [discriminate |].
  destruct (Agent.registry agent !! Agent.capability q) as [handler |].
  - destruct (handler ctx (Agent.arguments q) s) as [[[output | e] |] s'].
    + apply IH.
    + destruct (Py.fatal e) eqn:Hfatal; [| apply IH].
      intros [= <-]. right. eauto.
    + intros [= <-]. left. reflexivity.
  - intros [= <-]. right. eexists. split; reflexivity.
Qed.

(** When the handlers come back, a capability round does not run out of
    fuel. *)
Lemma resolve_comes_back (Hhandlers : Agent.handlers_return agent ctx)
    (requests : list Agent.request) :
  forall (history : list (Agent.turn R Obs)) (s : store),
    (Agent.resolve agent ctx requests history s).1.1 <> Some Agent.OutOfFuel.
Proof.
  induction requests as [| q rest IH]; intros history s; cbn [Agent.resolve];
    [discriminate |].
  destruct (Agent.registry agent !! Agent.capability q) as [handler |] eqn:Hlookup;
    [| discriminate].
  destruct (Hhandlers _ _ Hlookup (Agent.arguments q) s) as [Hback _].
  destruct (handler ctx (Agent.arguments q) s) as [[[output | e] |] s'].
  - apply IH.
  - destruct (Py.fatal e); [discriminate | apply IH].
  - contradiction.
Qed.

(** Under a validator that turns every candidate down, a run with a budget
    of [n] attempts accepts nothing, adds at most [n] candidates to the
    history, and ends in [RetriesExhausted] exactly when it has added
    [n]. *)
Lemma orchestrate_retry_invariant
    (Hretry : Agent.retried_on_every_call agent engine ctx) (fuel : nat) :
  forall (n : nat) (history : list (Agent.turn R Obs)) (s : store),
    1 <= n ->
    (forall r,
        (Agent.orchestrate agent engine limits ctx fuel n history s).1.1
        <> Agent.Accepted r) /\
    Agent.attempts_in (Agent.orchestrate agent engine limits ctx fuel n history s).1.2
      <= Agent.attempts_in history + n /\
    ((Agent.orchestrate agent engine limits ctx fuel n history s).1.1
       = Agent.Failed Py.RetriesExhausted
     <-> Agent.attempts_in (Agent.orchestrate agent engine limits ctx fuel n history s).1.2
         = Agent.attempts_in history + n).
Proof.
  assert (Hidle : forall (o : Agent.outcome R) (history : list (Agent.turn R Obs)) (n : nat),
             1 <= n -> (forall r, o <> Agent.Accepted r) ->
             o <> Agent.Failed Py.RetriesExhausted ->
             (forall r, o <> Agent.Accepted r) /\
             Agent.attempts_in history <= Agent.attempts_in history + n /\
             (o = Agent.Failed Py.RetriesExhausted
              <-> Agent.attempts_in history = Agent.attempts_in history + n)).
  { intros o history n Hn Hacc Hne. split; [exact Hacc |]. split; [lia |].
    split; [intros Ho; contradiction | intros Heq; lia]. }
  induction fuel as [| fuel IH]; intros n history s Hn; cbn [Agent.orchestrate].
  - apply Hidle; [assumption | discriminate | discriminate].
  - destruct (engine history) as [[resp c] |] eqn:Hengine;
      [| apply Hidle; [assumption | discriminate | discriminate]].
    cbn [Agent.usage_cost Agent.response].
    destruct (charge_at limits (Agent.ctx_usage ctx) c s) as [s1 |];
      [| apply Hidle; [assumption | discriminate | discriminate]].
    destruct resp as [r | requests].
    + destruct (Hretry history r c Hengine) as [message Hvalid]. rewrite Hvalid.
      destruct n as [| [| more]]; [lia | |].
      * cbn [fst snd]. rewrite !attempts_in_app.
        unfold Agent.attempts_in; simpl.
        split; [discriminate |]. split; [lia |]. split; [intros _; lia | reflexivity].
      * destruct (IH (S more)
                    ((history ++ [Agent.EngineResult r]) ++ [Agent.RetryFeedback message])
                    s1) as (Hacc & Hle & Hiff); [lia |].
        rewrite !attempts_in_app in Hle, Hiff.
        unfold Agent.attempts_in in Hle, Hiff; simpl in Hle, Hiff.
        fold (Agent.attempts_in history) in Hle, Hiff.
        split; [exact Hacc |]. split; [unfold Agent.attempts_in in *; lia |].
        rewrite Hiff. unfold Agent.attempts_in. lia.
    + pose proof (resolve_attempts requests
                    (history ++ [Agent.EngineRequests requests]) s1) as Hcount.
      pose proof (resolve_stopped requests
                    (history ++ [Agent.EngineRequests requests]) s1) as Hstop.
      destruct (Agent.resolve agent ctx requests
                  (history ++ [Agent.EngineRequests requests]) s1)
        as [[[stopped |] history'] s2]; cbn [fst snd] in Hcount, Hstop |- *.
      * rewrite attempts_in_app in Hcount.
        unfold Agent.attempts_in in Hcount at 3; simpl in Hcount.
        rewrite Hcount, Nat.add_0_r.
        destruct (Hstop stopped eq_refl) as [-> | (e & -> & Hfatal)].
        -- apply Hidle; [assumption | discriminate | discriminate].
        -- apply Hidle; [assumption | discriminate |].
           intros [= ->]. discriminate Hfatal.
      * rewrite attempts_in_app in Hcount.
        unfold Agent.attempts_in in Hcount at 3; simpl in Hcount.
        rewrite Nat.add_0_r in Hcount.
        destruct (IH n history' s2 Hn) as (Hacc & Hle & Hiff).
        rewrite Hcount in Hle, Hiff. auto.
Qed.

(** Under a ceiling, when every engine call costs at least one unit and
    the handlers come back, a run ends: each engine call uses up one unit
    of fuel and at least one unit of what the ceiling leaves. *)
Lemma orchestrate_ends (ceiling : nat)
    (Hlimits : limits = Some {| Ledger.request_limit := Some ceiling |})
    (Hcost : Agent.every_call_costs engine)
    (Hhandlers : Agent.handlers_return agent ctx) (fuel : nat) :
  forall (n : nat) (history : list (Agent.turn R Obs)) (s : store),
    Agent.ctx_usage ctx < length s ->
    ceiling + 1 - Ledger.consumed (ledger_at s (Agent.ctx_usage ctx)) < fuel ->
    (Agent.orchestrate agent engine limits ctx fuel n history s).1.1 <> Agent.OutOfFuel.
Proof.
  induction fuel as [| fuel IH]; intros n history s Hin Hfuel; [lia |].
  cbn [Agent.orchestrate].
  destruct (engine history) as [answer |] eqn:Hengine; [| discriminate].
  pose proof (Hcost _ _ Hengine) as Hone.
  destruct (charge_at limits (Agent.ctx_usage ctx) (Agent.usage_cost answer) s)
    as [s1 |] eqn:Hcharge; [| discriminate].
  assert (Hs1 : Agent.ctx_usage ctx < length s1 /\
                ceiling + 1 - Ledger.consumed (ledger_at s1 (Agent.ctx_usage ctx)) < fuel).
  { unfold charge_at in Hcharge. rewrite Hlimits in Hcharge.
    cbn [Ledger.within] in Hcharge. unfold Ledger.check in Hcharge.
    destruct (Nat.leb_spec
                (Ledger.consumed (ledger_at s (Agent.ctx_usage ctx))
                 + Agent.usage_cost answer) ceiling) as [Hroom | Hfull];
      [| discriminate].
    injection Hcharge as <-. rewrite length_insert, ledger_at_insert.
    destruct (decide (Agent.ctx_usage ctx < length s)); [| contradiction].
    cbn [Ledger.charge Ledger.consumed]. lia. }
  destruct Hs1 as [Hin1 Hfuel1].
  destruct (Agent.response answer) as [r | requests].
  - destruct (Agent.validator agent ctx r) as [r' | e]; [discriminate |].
    destruct e; try discriminate.
    destruct n as [| [| more]]; try discriminate.
    apply IH; assumption.
  - pose proof (resolve_comes_back Hhandlers requests
                  (history ++ [Agent.EngineRequests requests]) s1) as Hback.
    pose proof (resolve_charges_only agent ctx
                  (fun name handler Hlookup arguments s0 =>
                     proj2 (Hhandlers name handler Hlookup arguments s0))
                  requests (history ++ [Agent.EngineRequests requests]) s1)
      as (Hlen & _ & Hmono).
    destruct (Agent.resolve agent ctx requests
                (history ++ [Agent.EngineRequests requests]) s1)
      as [[[stopped |] history'] s2]; cbn [fst snd] in Hback, Hlen, Hmono |- *.
    + intros ->. apply Hback. reflexivity.
    + apply IH; lia.
Qed.

End RetryBound.

(** C3, amended.  Take a validator that asks for a retry on every call
    and a retry maximum of at least one attempt.  Whatever the engine does
    and whatever fuel the run is given: no result is accepted; the history
    gains at most as many candidate results as the configured maximum; and
    the run ends in [RetriesExhausted] exactly when it has gained that
    many.  Under a ceiling, with engine calls that cost at least one unit
    and handlers that come back, the run ends within [ceiling + 2] engine
    calls.  When moreover every engine call yields a candidate and the
    ledger has room for the attempts, the run ends in [RetriesExhausted].
    A run whose engine keeps asking for capabilities ends otherwise, as
    the counterexample shows. *)
Theorem retry_bound {D R Obs : Type} (agent : Agent.config D R Obs)
    (engine : Agent.Engine R Obs) (limits : option Ledger.UsageLimits)
    (ctx : Agent.RunContext D) (fuel : nat)
    (history : list (Agent.turn R Obs)) (s : store) :
  Agent.retried_on_every_call agent engine ctx ->
  1 <= Agent.retries agent ->
  (forall r,
      (Agent.orchestrate agent engine limits ctx fuel (Agent.retries agent) history s).1.1
      <> Agent.Accepted r) /\
  Agent.attempts_in
    (Agent.orchestrate agent engine limits ctx fuel (Agent.retries agent) history s).1.2
    <= Agent.attempts_in history + Agent.retries agent /\
  ((Agent.orchestrate agent engine limits ctx fuel (Agent.retries agent) history s).1.1
     = Agent.Failed Py.RetriesExhausted
   <-> Agent.attempts_in
         (Agent.orchestrate agent engine limits ctx fuel (Agent.retries agent)
            history s).1.2
       = Agent.attempts_in history + Agent.retries agent) /\
  (forall ceiling,
      limits = Some {| Ledger.request_limit := Some ceiling |} ->
      Agent.every_call_costs engine ->
      Agent.handlers_return agent ctx ->
      Agent.ctx_usage ctx < length s ->
      ceiling + 1 < fuel ->
      (Agent.orchestrate agent engine limits ctx fuel (Agent.retries agent) history s).1.1
      <> Agent.OutOfFuel) /\
  (forall cmax,
      Agent.always_retried agent engine ctx cmax ->
      Agent.retries agent <= fuel ->
      Ledger.within limits (Agent.retries agent * cmax)
        (ledger_at s (Agent.ctx_usage ctx)) = true ->
      (Agent.orchestrate agent engine limits ctx fuel (Agent.retries agent) history s).1.1
      = Agent.Failed Py.RetriesExhausted).
Proof.
  intros Hretry Hpos.
  destruct (orchestrate_retry_invariant agent engine limits ctx Hretry fuel
              (Agent.retries agent) history s Hpos) as (Hacc & Hle & Hiff).
  split; [exact Hacc |]. split; [exact Hle |]. split; [exact Hiff |]. split.
  - intros ceiling Hlimits Hcost Hhandlers Hin Hfuel.
    apply (orchestrate_ends agent engine limits ctx ceiling Hlimits Hcost Hhandlers);
      [assumption | lia].
  - intros cmax Halways Hfuel Hwithin.
    destruct (orchestrate_retries_exhausted agent engine limits ctx cmax Halways
                (Agent.retries agent) fuel history s Hpos Hfuel Hwithin)
      as (history' & s' & Hrun & _).
    rewrite Hrun. reflexivity.
Qed.

(** The search agent with the engine [Scenario.tool_then]: the engine calls
    the tool, then proposes the flight to Fairbanks again and again; the
    validator turns it down each time, and the run ends in
    [RetriesExhausted] with four candidates in its history. *)
Lemma retry_bound_witness :
  Agent.retries (search_agent Scenario.reads_page 8) = 4 /\
  (Agent.orchestrate (search_agent Scenario.reads_page 8)
     (Scenario.tool_then Scenario.SFO_AK456) (Some usage_limits) Scenario.search_ctx
     20 4 [Agent.UserPrompt (Some (search_prompt main_deps))] [Ledger.empty]).1.1
    = Agent.Failed Py.RetriesExhausted /\
  Agent.attempts_in
    (Agent.orchestrate (search_agent Scenario.reads_page 8)
       (Scenario.tool_then Scenario.SFO_AK456) (Some usage_limits) Scenario.search_ctx
       20 4 [Agent.UserPrompt (Some (search_prompt main_deps))] [Ledger.empty]).1.2
    = 0 + 4 /\
  (Agent.orchestrate (search_agent Scenario.reads_page 8)
     (Scenario.tool_then Scenario.SFO_AK456) (Some usage_limits) Scenario.search_ctx
     20 4 [Agent.UserPrompt (Some (search_prompt main_deps))] [Ledger.empty]).1.1
    <> Agent.OutOfFuel.
Proof.
  assert (Hretry : Agent.retried_on_every_call (search_agent Scenario.reads_page 8)
                     (Scenario.tool_then Scenario.SFO_AK456) Scenario.search_ctx).
  { intros history r c Hengine.
    assert (Hr : r = IsFlightDetails Scenario.SFO_AK456).
    { unfold Scenario.tool_then in Hengine.
      destruct history as [| [] [|]]; simpl in Hengine; inversion Hengine; reflexivity. }
    subst r. eexists. vm_compute. reflexivity. }
  assert (Hpos : 1 <= Agent.retries (search_agent Scenario.reads_page 8)).
  { simpl. lia. }
  destruct (retry_bound (search_agent Scenario.reads_page 8)
              (Scenario.tool_then Scenario.SFO_AK456) (Some usage_limits)
              Scenario.search_ctx 20
              [Agent.UserPrompt (Some (search_prompt main_deps))] [Ledger.empty]
              Hretry Hpos) as (_ & _ & Hiff & Hends & _).
  split; [reflexivity |]. split; [vm_compute; reflexivity |].
  split; [apply Hiff; vm_compute; reflexivity |].
  apply (Hends 15).
  - reflexivity.
  - intros history answer Hengine. unfold Scenario.tool_then in Hengine.
    destruct history as [| [] [|]]; simpl in Hengine; inversion Hengine; simpl; lia.
  - intros name handler Hlookup arguments s0.
    cbn in Hlookup. apply lookup_singleton_Some in Hlookup as [_ <-].
    split.
    + rewrite (extract_flights_charges_session_ledger Scenario.reads_page 7
                 Scenario.search_ctx arguments s0 candidate_pool 1 eq_refl).
      discriminate.
    + apply extract_flights_charges_only.
  - simpl. lia.
  - lia.
Defined.

(** The claim C3 as stated does not hold.  The engine [Scenario.stalls]
    proposes the flight to Fairbanks, which the validator turns down, and
    from then on asks for the tool on every call: the validator has asked
    for a retry on its every call, yet the run of the search agent ends in
    [BudgetExceeded] with one candidate in its history, and for no fuel in
    [RetriesExhausted]. *)
Lemma retries_exhausted_refuted :
  Agent.retried_on_every_call (search_agent Scenario.reads_page 8)
    (Scenario.stalls Scenario.SFO_AK456) Scenario.search_ctx /\
  (Agent.orchestrate (search_agent Scenario.reads_page 8)
     (Scenario.stalls Scenario.SFO_AK456) (Some usage_limits) Scenario.search_ctx
     20 4 [Agent.UserPrompt (Some (search_prompt main_deps))] [Ledger.empty]).1.1
    = Agent.Failed Py.BudgetExceeded /\
  Agent.attempts_in
    (Agent.orchestrate (search_agent Scenario.reads_page 8)
       (Scenario.stalls Scenario.SFO_AK456) (Some usage_limits) Scenario.search_ctx
       20 4 [Agent.UserPrompt (Some (search_prompt main_deps))] [Ledger.empty]).1.2
    = 1 /\
  ~ (forall engine : SearchEngine,
       Agent.retried_on_every_call (search_agent Scenario.reads_page 8) engine
         Scenario.search_ctx ->
       exists fuel history' s',
         Agent.orchestrate (search_agent Scenario.reads_page 8) engine
           (Some usage_limits) Scenario.search_ctx fuel
           (Agent.retries (search_agent Scenario.reads_page 8))
           [Agent.UserPrompt (Some (search_prompt main_deps))] [Ledger.empty]
         = (Agent.Failed Py.RetriesExhausted, history', s')).
Proof.
  assert (Hretry : Agent.retried_on_every_call (search_agent Scenario.reads_page 8)
                     (Scenario.stalls Scenario.SFO_AK456) Scenario.search_ctx).
  { intros history r c Hengine.
    assert (Hr : r = IsFlightDetails Scenario.SFO_AK456).
    { unfold Scenario.stalls in Hengine.
      destruct history as [| [] [|]]; simpl in Hengine; inversion Hengine; reflexivity. }
    subst r. eexists. vm_compute. reflexivity. }
  split; [exact Hretry |].
  split; [vm_compute; reflexivity |]. split; [vm_compute; reflexivity |].
  intros Hclaim. destruct (Hclaim _ Hretry) as (fuel & history' & s' & Hrun).
  do 9 (destruct fuel as [| fuel]; [vm_compute in Hrun; discriminate Hrun |]).
  vm_compute in Hrun. discriminate Hrun.
Qed.

(** * Further properties of the sources *)

(** ** The result validator *)

(** X1.  Whatever [validate_result] returns is the result it was given:
    the validator never alters a candidate, flight or "not found". *)
Theorem validate_result_returns_argument (deps : Deps) (r r' : SearchResult) :
  validate_result deps r = Py.Return r' -> r' = r.
Proof.
  destruct r as [f |]; simpl.
  - destruct (validation_errors deps f); [| discriminate].
    intros [= <-]. reflexivity.
  - intros [= <-]. reflexivity.
Qed.

Lemma validate_result_returns_argument_witness :
  IsFlightDetails Scenario.SFO_AK123 = IsFlightDetails Scenario.SFO_AK123.
Proof.
  apply (validate_result_returns_argument main_deps).
  vm_compute. reflexivity.
Defined.

Lemma error_messages_not_empty (deps : Deps) (f : FlightDetails) (c : ConstraintField) :
  exists rest, mismatch_message deps f c = String "F" rest.
Proof. destruct c; eexists; reflexivity. Qed.

Lemma join_starts_with_first (sep first : string) (rest : list string) (tail : string) :
  first = String "F" tail ->
  exists tail', Py.join sep (first :: rest) = String "F" tail'.
Proof.
  intros ->. unfold Py.join. destruct rest as [| second rest]; simpl; eexists; reflexivity.
Qed.

(** X2.  The only exception [validate_result] raises is [ModelRetry], and
    its message is never empty: it opens with the message of the first
    mismatched field. *)
Theorem validate_result_raises_only_retry (deps : Deps) (r : SearchResult) (e : Py.exc) :
  validate_result deps r = Py.Raise e ->
  exists f c others tail,
    r = IsFlightDetails f /\
    mismatched_fields deps f = c :: others /\
    e = Py.ModelRetry (String "F" tail) /\
    String "F" tail
      = Py.join Py.newline (List.map (mismatch_message deps f) (c :: others)).
Proof.
  destruct r as [f |]; [| discriminate].
  rewrite validate_result_cases.
  destruct (mismatched_fields deps f) as [| c others] eqn:Hfields; [discriminate |].
  intros [= <-].
  destruct (error_messages_not_empty deps f c) as [tail Htail].
  destruct (join_starts_with_first Py.newline (mismatch_message deps f c)
              (List.map (mismatch_message deps f) others) tail Htail) as [tail' Hjoin].
  exists f, c, others, tail'. cbn [List.map].
  split; [reflexivity |]. split; [exact Hfields |].
  split; [f_equal; exact Hjoin | symmetry; exact Hjoin].
Qed.

Lemma validate_result_raises_only_retry_witness :
  exists f c others tail,
    IsFlightDetails Scenario.SFO_AK456 = IsFlightDetails f /\
    mismatched_fields main_deps f = c :: others /\
    Py.ModelRetry "Flight should have destination ANC, not FAI"
      = Py.ModelRetry (String "F" tail) /\
    String "F" tail
      = Py.join Py.newline (List.map (mismatch_message main_deps f) (c :: others)).
Proof.
  apply (validate_result_raises_only_retry main_deps).
  vm_compute. reflexivity.
Defined.

(** X3.  The verdict depends on origin, destination and date only: two
    flights that agree on these three fields, checked against constraint sets
    that agree on the three required values, get the same list of messages
    and are accepted or rejected together.  Flight number, price and the page
    text play no part. *)
Theorem validate_result_reads_three_fields (deps deps' : Deps) (f g : FlightDetails) :
  origin f = origin g -> destination f = destination g -> date f = date g ->
  req_origin deps = req_origin deps' ->
  req_destination deps = req_destination deps' ->
  req_date deps = req_date deps' ->
  validation_errors deps f = validation_errors deps' g /\
  (Py.returns (validate_result deps (IsFlightDetails f))
   <-> Py.returns (validate_result deps' (IsFlightDetails g))).
Proof.
  intros Ho Hd Ht Hro Hrd Hrt.
  assert (Herrors : validation_errors deps f = validation_errors deps' g).
  { unfold validation_errors, origin_error, destination_error, date_error.
    rewrite Ho, Hd, Ht, Hro, Hrd, Hrt. reflexivity. }
  split; [exact Herrors |].
  unfold validate_result. rewrite Herrors.
  destruct (validation_errors deps' g); unfold Py.returns; split;
    intros [a Ha]; try discriminate; eexists; reflexivity.
Qed.

Lemma validate_result_reads_three_fields_witness :
  validation_errors main_deps Scenario.SFO_AK123
    = validation_errors main_deps Scenario.NYC_LA101 /\
  (Py.returns (validate_result main_deps (IsFlightDetails Scenario.SFO_AK123))
   <-> Py.returns (validate_result main_deps (IsFlightDetails Scenario.NYC_LA101))).
Proof.
  apply validate_result_reads_three_fields; reflexivity.
Defined.

(** ** The [execute_code] tool *)

(** X4.  What [execute_code] feeds back: a non-zero exit code raises
    [ModelRetry] with the standard error of the execution, whatever the
    standard output holds; an exit code of zero with an empty standard output
    raises [ModelRetry] with the fixed hint, whatever the standard error
    holds. *)
Theorem execute_code_feedback (exec : string -> Riza.execution) (code : string) :
  (Riza.exit_code (exec code) <> 0%Z /\
   Riza.execute_code exec code = Py.Raise (Py.ModelRetry (Riza.stderr (exec code))))
  \/ (Riza.exit_code (exec code) = 0%Z /\ Riza.stdout (exec code) = "" /\
      Riza.execute_code exec code = Py.Raise (Py.ModelRetry Riza.no_output_message))
  \/ (Riza.exit_code (exec code) = 0%Z /\ Riza.stdout (exec code) <> "" /\
      Riza.execute_code exec code = Py.Return (Riza.stdout (exec code))).
Proof.
  unfold Riza.execute_code.
  destruct (Z.eqb_spec (Riza.exit_code (exec code)) 0) as [Hexit | Hexit]; simpl.
  - destruct (String.eqb_spec (Riza.stdout (exec code)) "") as [Hout | Hout];
      right; [left | right]; auto.
  - left; auto.
Qed.

(** ** The weather tools *)

(** X5.  [get_weather] returns a report exactly when no weather API key is
    configured, and the report is then the fixed one, whatever the API would
    answer.  With a key it raises: [HTTPStatusError] when the API answers
    with an error status, and [TypeError] when it answers with a body that
    holds [data.values.temperature] and [data.values.weatherCode]. *)
Theorem get_weather_returns_iff_no_key (Temperature : Type)
    (format_0f : Temperature -> string) (deps : Weather.Deps)
    (answer : Weather.response Temperature) :
  (Py.returns (Weather.get_weather Temperature format_0f deps answer)
   <-> Weather.weather_api_key deps = None) /\
  match Weather.weather_api_key deps, answer with
  | None, _ =>
      Weather.get_weather Temperature format_0f deps answer
      = Py.Return {| Weather.temperature_text := "21 ℃";
                     Weather.description := "Sunny with a chance of showers" |}
  | Some _, Weather.ErrorStatus _ =>
      Weather.get_weather Temperature format_0f deps answer
      = Py.Raise Py.HTTPStatusError
  | Some _, Weather.Body _ _ =>
      Weather.get_weather Temperature format_0f deps answer
      = Py.Raise (Py.TypeError "'dict' object is not callable")
  end.
Proof.
  unfold Weather.get_weather, Py.returns.
  destruct (Weather.weather_api_key deps) as [key |].
  - destruct answer as [| v];
      (split; [split; [intros [a Ha] | intros Hnone]; discriminate | reflexivity]).
  - split; [split; [reflexivity | intros _; eexists; reflexivity] | reflexivity].
Qed.

(** X6.  [get_lat_lng] without a geocoding key returns the fixed position
    and does not consult the API.  With a key it returns the coordinates of
    the first entry of the answer, ['lon'] under the key ['lng'], whatever
    entries follow; it raises [ModelRetry] exactly on an empty list, and
    [HTTPStatusError] on an error status. *)
Theorem get_lat_lng_contract (Coordinate : Type) (london_lat london_lng : Coordinate)
    (geocode : string -> Geocode.response Coordinate) (deps : Weather.Deps)
    (location : string) :
  match Weather.geo_api_key deps, geocode location with
  | None, _ =>
      Geocode.get_lat_lng Coordinate london_lat london_lng geocode deps location
      = Py.Return {| Geocode.position_lat := london_lat;
                     Geocode.position_lng := london_lng |}
  | Some _, Geocode.ErrorStatus _ =>
      Geocode.get_lat_lng Coordinate london_lat london_lng geocode deps location
      = Py.Raise Py.HTTPStatusError
  | Some _, Geocode.Body _ [] =>
      Geocode.get_lat_lng Coordinate london_lat london_lng geocode deps location
      = Py.Raise (Py.ModelRetry "Could not find location")
  | Some _, Geocode.Body _ (first :: _) =>
      Geocode.get_lat_lng Coordinate london_lat london_lng geocode deps location
      = Py.Return {| Geocode.position_lat := Geocode.lat Coordinate first;
                     Geocode.position_lng := Geocode.lon Coordinate first |}
  end /\
  ((exists message,
      Geocode.get_lat_lng Coordinate london_lat london_lng geocode deps location
      = Py.Raise (Py.ModelRetry message))
   <-> Weather.geo_api_key deps <> None /\ geocode location = Geocode.Body Coordinate []).
Proof.
  unfold Geocode.get_lat_lng.
  destruct (Weather.geo_api_key deps) as [key |].
  - destruct (geocode location) as [| [| first rest]]; (split; [reflexivity |]).
    + split; [intros [m Hm]; discriminate | intros [_ Hbody]; discriminate].
    + split; [intros _; split; [discriminate | reflexivity] | intros _; eexists; reflexivity].
    + split; [intros [m Hm]; discriminate | intros [_ Hbody]; discriminate].
  - split; [reflexivity |].
    split; [intros [m Hm]; discriminate | intros [Hkey _]; contradiction].
Qed.

(** ** The interactive loops of flight_booking.py *)

Lemma search_runs_app (t1 t2 : list event) :
  search_runs (t1 ++ t2) = search_runs t1 + search_runs t2.
Proof. unfold search_runs. rewrite List.filter_app, length_app. reflexivity. Qed.

(** Counting the runs in a trace built by appending events. *)
Ltac count_runs :=
  repeat (progress cbn [snd trace emit with_ledgers buy_tickets ledgers stdin]
          || rewrite search_runs_app);
  cbn; lia.

Section LoopFacts.

Variable search_engine : SearchEngine.
Variable extraction_engine : ExtractionEngine.
Variable seat_engine : SeatEngine.
Variable fuel : nat.

Lemma find_seat_one_round (rounds : nat) (usage : loc)
    (history : option (list SeatTurn)) (w : world) :
  find_seat seat_engine fuel (S rounds) usage history w
  = find_seat seat_engine fuel 1 usage history w.
Proof.
  cbn [find_seat].
  destruct (Prompt_ask "What seat would you like?" None w) as [[answer | e] w1];
    [| reflexivity].
  destruct (Agent.run seat_preference_agent seat_engine fuel (Some answer) tt
              (Some usage) history (Some usage_limits) (ledgers (emit _ w1)))
    as [[[result | e] |] s]; reflexivity.
Qed.

Lemma find_seat_reads_one_line (rounds : nat) (usage : loc)
    (history : option (list SeatTurn)) (w : world) :
  stdin (find_seat seat_engine fuel (S rounds) usage history w).2 = drop 1 (stdin w).
Proof.
  cbn [find_seat]. unfold Prompt_ask. cbn [emit stdin ledgers trace].
  destruct (stdin w) as [| line rest]; cbn [read_choice snd stdin drop]; [reflexivity |].
  match goal with
  | |- context [Agent.run ?a ?e ?f ?p ?d ?u ?h ?l ?s] =>
      destruct (Agent.run a e f p d u h l s) as [[[result | e'] |] s']
  end; cbn [snd with_ledgers stdin]; try reflexivity.
  all: destruct (Agent.data result); reflexivity.
Qed.

Lemma find_seat_no_search_run (rounds : nat) (usage : loc)
    (history : option (list SeatTurn)) (w : world) :
  search_runs (trace (find_seat seat_engine fuel rounds usage history w).2)
  = search_runs (trace w).
Proof.
  destruct rounds as [| rounds]; [reflexivity |].
  cbn [find_seat]. unfold Prompt_ask. cbn [emit stdin ledgers trace].
  destruct (read_choice None (stdin w)) as [[answer | e] rest]; [| count_runs].
  match goal with
  | |- context [Agent.run ?a ?e ?f ?p ?d ?u ?h ?l ?s] =>
      destruct (Agent.run a e f p d u h l s) as [[[result | e'] |] s']
  end; try count_runs.
  destruct (Agent.data result); rewrite ?all_dot_messages_raises; count_runs.
Qed.

Lemma session_loop_one_search_run (rounds : nat) (deps : Deps) (usage : loc)
    (history : option (list SearchTurn)) (w : world) :
  search_runs (trace (session_loop search_engine extraction_engine seat_engine fuel
                        (S rounds) deps usage history w).2)
  = S (search_runs (trace w)).
Proof.
  cbn [session_loop]. cbn [emit ledgers].
  destruct (Agent.run (search_agent extraction_engine fuel) search_engine fuel
              (Some (search_prompt deps)) deps (Some usage) history (Some usage_limits)
              (ledgers w)) as [[[result | e] |] s]; try count_runs.
  destruct (Agent.data result) as [flight |]; [| count_runs].
  unfold Prompt_ask. cbn [emit stdin ledgers trace with_ledgers].
  destruct (read_choice (Some ["buy"; "search"; ""]) (stdin w)) as [[answer | e] rest];
    [| count_runs].
  destruct (String.eqb answer "buy").
  - match goal with
    | |- context [find_seat seat_engine fuel rounds usage None ?w0] =>
        pose proof (find_seat_no_search_run rounds usage None w0) as Hseat;
        destruct (find_seat seat_engine fuel rounds usage None w0) as [[[p | e] |] w5]
    end; cbn [snd trace] in Hseat;
      repeat (progress cbn [snd trace emit with_ledgers buy_tickets ledgers stdin]
              || rewrite search_runs_app);
      rewrite Hseat; count_runs.
  - rewrite all_dot_messages_raises. count_runs.
Qed.

End LoopFacts.

(** X7.  [find_seat] asks once: with any bound of one round or more it
    behaves as with one round, so it never goes round its loop a second
    time, and it takes at most one line from the input. *)
Theorem find_seat_asks_once (seat_engine : SeatEngine) (fuel rounds : nat)
    (usage : loc) (history : option (list SeatTurn)) (w : world) :
  find_seat seat_engine fuel (S rounds) usage history w
    = find_seat seat_engine fuel 1 usage history w /\
  stdin (find_seat seat_engine fuel (S rounds) usage history w).2 = drop 1 (stdin w).
Proof.
  split; [apply find_seat_one_round | apply find_seat_reads_one_line].
Qed.

(** X8.  A session runs the search agent exactly once: whatever the
    engines answer and the user types, the trace of the loop holds one run of
    the search agent more than before, for every bound of one round or more. *)
Theorem session_runs_search_agent_once (search_engine : SearchEngine)
    (extraction_engine : ExtractionEngine) (seat_engine : SeatEngine)
    (fuel rounds : nat) (deps : Deps) (usage : loc)
    (history : option (list SearchTurn)) (w : world) :
  search_runs (trace (session_loop search_engine extraction_engine seat_engine fuel
                        (S rounds) deps usage history w).2)
  = S (search_runs (trace w)).
Proof. apply session_loop_one_search_run. Qed.

(** X9.  The loop has no handler: an exception of the run of the search
    agent leaves the loop as it is, with nothing printed and no prompt shown;
    the ledger keeps what the run has charged. *)
Theorem session_loop_propagates_failure (search_engine : SearchEngine)
    (extraction_engine : ExtractionEngine) (seat_engine : SeatEngine)
    (fuel rounds : nat) (deps : Deps) (usage : loc)
    (history : option (list SearchTurn)) (w : world) (e : Py.exc) (s : store) :
  Agent.run (search_agent extraction_engine fuel) search_engine fuel
    (Some (search_prompt deps)) deps (Some usage) history (Some usage_limits)
    (ledgers w) = (Some (Py.Raise e), s) ->
  session_loop search_engine extraction_engine seat_engine fuel (S rounds) deps usage
    history w
  = (Some (Py.Raise e),
     {| ledgers := s; stdin := stdin w;
        trace := trace w ++ [RunSearch (search_prompt deps) history] |}).
Proof.
  intros Hrun. cbn [session_loop]. cbn [emit ledgers]. rewrite Hrun. reflexivity.
Qed.

Lemma session_loop_propagates_failure_witness :
  session_loop (fun _ => None) Scenario.reads_page (Scenario.always IsFailed) 8 3
    main_deps 0 None (Scenario.start ["buy"])
  = (Some (Py.Raise Py.EngineUnavailable),
     {| ledgers := [Ledger.empty]; stdin := ["buy"];
        trace := [RunSearch (search_prompt main_deps) None] |}).
Proof.
  apply (session_loop_propagates_failure (fun _ => None) Scenario.reads_page
           (Scenario.always IsFailed) 8 2 main_deps 0 None (Scenario.start ["buy"])).
  vm_compute. reflexivity.
Defined.

(** X10.  The purchase: when the run yields a flight, the answer is "buy"
    and [find_seat] returns a seat, the loop ends normally and its last act is
    the purchase of that flight with that seat; [find_seat] works on the
    ledger of the session. *)
Theorem session_loop_buys (search_engine : SearchEngine)
    (extraction_engine : ExtractionEngine) (seat_engine : SeatEngine)
    (fuel rounds : nat) (deps : Deps) (usage : loc)
    (history : option (list SearchTurn)) (w w' : world)
    (result : Agent.RunResult SearchResult (list FlightDetails)) (s : store)
    (flight : FlightDetails) (rest : list string) (p : SeatPreference) :
  Agent.run (search_agent extraction_engine fuel) search_engine fuel
    (Some (search_prompt deps)) deps (Some usage) history (Some usage_limits)
    (ledgers w) = (Some (Py.Return result), s) ->
  Agent.data result = IsFlightDetails flight ->
  read_choice (Some ["buy"; "search"; ""]) (stdin w) = (Py.Return "buy", rest) ->
  find_seat seat_engine fuel rounds usage None
    {| ledgers := s; stdin := rest;
       trace := trace w ++
         [RunSearch (search_prompt deps) history; PrintFlightFound flight;
          Ask "Do you want to buy this flight, or keep searching? (buy/*search)"] |}
    = (Some (Py.Return p), w') ->
  session_loop search_engine extraction_engine seat_engine fuel (S rounds) deps usage
    history w
  = (Some (Py.Return tt),
     {| ledgers := ledgers w'; stdin := stdin w';
        trace := trace w' ++ [PrintPurchasing flight p] |}).
Proof.
  intros Hrun Hdata Hread Hseat. cbn [session_loop].
  cbn [emit ledgers]. rewrite Hrun, Hdata.
  unfold Prompt_ask, emit, with_ledgers; cbn [ledgers stdin trace].
  rewrite Hread. cbn [String.eqb Ascii.eqb Bool.eqb].
  rewrite <- !app_assoc. cbn [app].
  rewrite Hseat. reflexivity.
Qed.

(** The answer is typed with blanks around it, after a line that is not a
    choice; the seat is typed with blanks too. *)
Lemma session_loop_buys_witness :
  session_loop (Scenario.always (IsFlightDetails Scenario.NYC_LA101)) Scenario.reads_page
    (Scenario.always (IsSeatPreference Scenario.seat_1A)) 8 2 main_deps 0 None
    (Scenario.start ["maybe"; "  buy "; " 1A "; "left over"])
  = (Some (Py.Return tt),
     {| ledgers := [{| Ledger.consumed := 2 |}]; stdin := ["left over"];
        trace := [RunSearch (search_prompt main_deps) None;
                  PrintFlightFound Scenario.NYC_LA101;
                  Ask "Do you want to buy this flight, or keep searching? (buy/*search)";
                  Ask "What seat would you like?";
                  RunSeat "1A" None;
                  PrintPurchasing Scenario.NYC_LA101 Scenario.seat_1A] |}).
Proof.
  apply (session_loop_buys (Scenario.always (IsFlightDetails Scenario.NYC_LA101))
           Scenario.reads_page (Scenario.always (IsSeatPreference Scenario.seat_1A))
           8 1 main_deps 0 None (Scenario.start ["maybe"; "  buy "; " 1A "; "left over"])
           {| ledgers := [{| Ledger.consumed := 2 |}]; stdin := ["left over"];
              trace := [RunSearch (search_prompt main_deps) None;
                        PrintFlightFound Scenario.NYC_LA101;
                        Ask "Do you want to buy this flight, or keep searching? (buy/*search)";
                        Ask "What seat would you like?";
                        RunSeat "1A" None] |}
           {| Agent.data := IsFlightDetails Scenario.NYC_LA101;
              Agent.all_messages :=
                [Agent.UserPrompt (Some (search_prompt main_deps));
                 Agent.EngineResult (IsFlightDetails Scenario.NYC_LA101)];
              Agent.usage := 0 |}
           [{| Ledger.consumed := 1 |}] Scenario.NYC_LA101 [" 1A "; "left over"]
           Scenario.seat_1A).
  - vm_compute. reflexivity.
  - reflexivity.
  - vm_compute. reflexivity.
  - vm_compute. reflexivity.
Defined.

(** X11.  Any answer other than "buy", the empty answer included, ends the
    session in [AttributeError]: the flight has been shown, the prompt asked,
    and the search agent is not run again. *)
Theorem any_other_answer_ends_session (search_engine : SearchEngine)
    (extraction_engine : ExtractionEngine) (seat_engine : SeatEngine)
    (fuel rounds : nat) (deps : Deps) (usage : loc)
    (history : option (list SearchTurn)) (w : world)
    (result : Agent.RunResult SearchResult (list FlightDetails)) (s : store)
    (flight : FlightDetails) (answer : string) (rest : list string) :
  Agent.run (search_agent extraction_engine fuel) search_engine fuel
    (Some (search_prompt deps)) deps (Some usage) history (Some usage_limits)
    (ledgers w) = (Some (Py.Return result), s) ->
  Agent.data result = IsFlightDetails flight ->
  read_choice (Some ["buy"; "search"; ""]) (stdin w) = (Py.Return answer, rest) ->
  answer <> "buy" ->
  session_loop search_engine extraction_engine seat_engine fuel (S rounds) deps usage
    history w
  = (Some (Py.Raise (Py.AttributeError "all")),
     {| ledgers := s; stdin := rest;
        trace := trace w ++
          [RunSearch (search_prompt deps) history;
           PrintFlightFound flight;
           Ask "Do you want to buy this flight, or keep searching? (buy/*search)"] |}).
Proof. apply session_loop_keep_searching. Qed.

(** A line that differs from a choice by its case is turned down; the
    blank line that follows is the empty answer. *)
Lemma any_other_answer_ends_session_witness :
  session_loop (Scenario.always (IsFlightDetails Scenario.NYC_LA101)) Scenario.reads_page
    (Scenario.always IsFailed) 8 4 main_deps 0 None (Scenario.start ["Buy"; "   "; "buy"])
  = (Some (Py.Raise (Py.AttributeError "all")),
     {| ledgers := [{| Ledger.consumed := 1 |}]; stdin := ["buy"];
        trace := [RunSearch (search_prompt main_deps) None;
                  PrintFlightFound Scenario.NYC_LA101;
                  Ask "Do you want to buy this flight, or keep searching? (buy/*search)"] |}).
Proof.
  apply (any_other_answer_ends_session
           (Scenario.always (IsFlightDetails Scenario.NYC_LA101)) Scenario.reads_page
           (Scenario.always IsFailed) 8 3 main_deps 0 None (Scenario.start ["Buy"; "   "; "buy"])
           {| Agent.data := IsFlightDetails Scenario.NYC_LA101;
              Agent.all_messages :=
                [Agent.UserPrompt (Some (search_prompt main_deps));
                 Agent.EngineResult (IsFlightDetails Scenario.NYC_LA101)];
              Agent.usage := 0 |}
           [{| Ledger.consumed := 1 |}] Scenario.NYC_LA101 "" ["buy"]).
  - vm_compute. reflexivity.
  - reflexivity.
  - vm_compute. reflexivity.
  - discriminate.
Defined.

(** ** The chat loop of pydantic.py *)

Section ChatFacts.

Variable Message : Type.
Variable Value : Type.
Variable role_of : Message -> option Value.
Variable content_of : Message -> option Value.
Variable str_of : Message -> string.
Variable run_sync : string -> option (list Message) -> Py.result (Chat.RunResult Message).

Local Abbreviation loop := (Chat.loop Message Value role_of content_of str_of run_sync).
Local Abbreviation linked := (Chat.linked Message run_sync).
Local Abbreviation calls := (Chat.calls Message Value).
Local Abbreviation printed := (Chat.printed Message Value).

(** Appending a call that carries the messages of the result of the last
    call keeps the calls linked. *)
Lemma linked_snoc (cs : list (string * option (list Message)))
    (p0 : string) (h0 : option (list Message)) (r : Chat.RunResult Message)
    (p : string) :
  linked cs -> last cs = Some (p0, h0) -> run_sync p0 h0 = Py.Return r ->
  linked (cs ++ [(p, Some (Chat.all_messages Message r))]).
Proof.
  intros Hlinked Hlast Hrun i q h Hlookup.
  apply lookup_snoc_Some in Hlookup as [[Hlt Hold] | [Hi Hnew]].
  - destruct (Hlinked i q h Hold) as (q0 & g0 & r0 & Hprev & Hrun0 & Hh).
    exists q0, g0, r0. split; [| auto].
    rewrite lookup_app_l; [exact Hprev | lia].
  - injection Hnew as <- <-.
    exists p0, h0, r. split; [| auto].
    rewrite last_lookup in Hlast. rewrite <- Hi in Hlast. simpl in Hlast.
    rewrite lookup_app_l; [exact Hlast | lia].
Qed.

Lemma loop_keeps_linked (lines : list string) :
  forall (result : Chat.RunResult Message) (st : Chat.state Message Value)
         (p0 : string) (h0 : option (list Message)),
    linked (calls st) -> last (calls st) = Some (p0, h0) ->
    run_sync p0 h0 = Py.Return result ->
    linked (calls (loop result lines st).2).
Proof.
  induction lines as [| usr_msg rest IH]; intros result st p0 h0 Hlinked Hlast Hrun;
    cbn [Chat.loop]; [exact Hlinked |].
  cbn [Chat.calls Chat.printed Chat.log_file Chat.unread].
  pose proof (linked_snoc (calls st) p0 h0 result usr_msg Hlinked Hlast Hrun) as Hnext.
  destruct (run_sync usr_msg (Some (Chat.all_messages Message result)))
    as [result' | e] eqn:Hcall; [| exact Hnext].
  destruct (String.eqb usr_msg "quit"); [exact Hnext |].
  eapply IH.
  - exact Hnext.
  - cbn [Chat.log_messages Chat.calls]. apply last_snoc.
  - exact Hcall.
Qed.

(** Every run of the agent succeeds. *)
Hypothesis run_sync_returns : forall p h, Py.returns (run_sync p h).


End ChatFacts.



(** X13.  The conversation is carried along: the first run of the agent
    has no history, and every later run is given exactly the messages of the
    result of the run before it, however the script ends. *)
Theorem chat_history_is_linked (Message Value : Type)
    (role_of content_of : Message -> option Value) (str_of : Message -> string)
    (run_sync : string -> option (list Message) -> Py.result (Chat.RunResult Message))
    (lines : list string) :
  Chat.calls Message Value
    (Chat.script Message Value role_of content_of str_of run_sync lines).2 !! 0
    = Some (Chat.greeting, None) /\
  Chat.linked Message run_sync
    (Chat.calls Message Value
       (Chat.script Message Value role_of content_of str_of run_sync lines).2).
Proof.
  unfold Chat.script. cbn [Chat.start Chat.calls Chat.unread Chat.printed Chat.log_file app].
  destruct (run_sync Chat.greeting None) as [result | e] eqn:Hfirst; cbn [snd Chat.calls].
  - assert (Hinit : Chat.linked Message run_sync [(Chat.greeting, None)]).
    { intros i p h Hlookup. destruct i; discriminate Hlookup. }
    split.
    + clear Hinit. revert result Hfirst.
      generalize (@nil string) at 1 as out. generalize (@None (list (Chat.entry Value))).
      generalize lines at 1 as pending.
      assert (Hgen : forall ls pending log out tailcalls result,
                 Chat.calls Message Value
                   (Chat.loop Message Value role_of content_of str_of run_sync result ls
                      {| Chat.unread := pending; Chat.printed := out;
                         Chat.log_file := log;
                         Chat.calls := (Chat.greeting, None) :: tailcalls |}).2 !! 0
                 = Some (Chat.greeting, None)).
      { induction ls as [| l ls IH]; intros pending log out tailcalls result;
          cbn [Chat.loop Chat.calls Chat.unread Chat.printed Chat.log_file snd];
          [reflexivity |].
        destruct (run_sync l (Some (Chat.all_messages Message result)));
          [| reflexivity].
        destruct (String.eqb l "quit"); [reflexivity |].
        cbn [Chat.log_messages Chat.calls Chat.unread Chat.printed Chat.log_file app].
        apply IH. }
      intros pending log out result _. apply Hgen.
    + eapply loop_keeps_linked; [exact Hinit | reflexivity | exact Hfirst].
  - split; [reflexivity |].
    intros i p h Hlookup. destruct i; discriminate Hlookup.
Qed.



(** ** stream_markdown.py *)

Lemma for_each_model_is_silent (ms : list (string * string))
    (environ : gmap string string) :
  Stream.for_each_model ms environ = [].
Proof.
  induction ms as [| [model env_var] rest IH]; [reflexivity |].
  cbn [Stream.for_each_model Stream.is_environ app]. exact IH.
Qed.

(** X15.  [main] of the streaming example starts no stream: for every
    environment, with all three API keys set or none, and for every list of
    models, the loop over the models does nothing, so [main] installs the
    code blocks, logs the question, and ends. *)
Theorem stream_main_starts_no_stream (ms : list (string * string))
    (environ : gmap string string) :
  Stream.for_each_model ms environ = [] /\
  Stream.main environ
    = [Stream.CodeBlocksInstalled;
       Stream.Logged "Asking: Show me a short example of using Pydantic...."] /\
  List.filter Stream.streams (Stream.main environ) = [].
Proof.
  split; [apply for_each_model_is_silent |].
  unfold Stream.main. rewrite for_each_model_is_silent. split; reflexivity.
Qed.

(** ** The web scraper *)


